(** * Email service prefab

    A shallow embedding of [src/main.py]: [send_email], [send_bulk_email]
    and [send_email_with_template], together with the parts of the Python
    runtime they lean on (string splitting and trimming, [str.format],
    dictionaries, the exception hierarchy, the SMTP client of [smtplib]
    and the attachment directory).

    Conventions.
    - A Python [str] is a Rocq [string] holding its UTF-8 bytes.
    - A Python [dict] with string keys that is only read and written by key
      is a [gmap string pyval]; a dict whose iteration order is observable
      (nested template data) is an association list inside [pyval].
    - The SMTP client is an oracle over the history of calls made so far;
      the history itself is the state threaded through every function. *)

From Stdlib Require Import String Ascii ZArith List Lia.
From stdpp Require Import gmap strings list fin_maps.

Local Open Scope string_scope.
Local Set Warnings "-register-all".

(* ===================================================================== *)
(** ** Python strings *)
(* ===================================================================== *)

Definition dq : string := String (ascii_of_nat 34) "".
Definition nl : string := String (ascii_of_nat 10) "".

(** The text of a multi-line literal, one list element per source line. *)
Definition lines (l : list string) : string := String.concat nl l.

(** [s.split(sep)] for a one-character separator: empty segments are kept
    and the result is never empty. *)
Fixpoint split (sep : ascii) (s : string) : list string :=
  match s with
  | "" => [""]
  | String c s' =>
      if Ascii.eqb c sep then "" :: split sep s'
      else match split sep s' with
           | seg :: segs => String c seg :: segs
           | [] => [String c ""]
           end
  end.

(** [sep.join(l)]. *)
Definition join (sep : string) (l : list string) : string := String.concat sep l.

(** Whitespace as [str.isspace] sees it, on UTF-8 encoded text: the code
    points U+0009..U+000D, U+001C..U+0020, U+0085, U+00A0, U+1680,
    U+2000..U+200A, U+2028, U+2029, U+202F, U+205F and U+3000. *)
Definition is_space1 (c : ascii) : bool :=
  let n := nat_of_ascii c in
  (Nat.leb 9 n && Nat.leb n 13) || (Nat.leb 28 n && Nat.leb n 32).

Definition is_space2 (c1 c2 : ascii) : bool :=
  let a := nat_of_ascii c1 in
  let b := nat_of_ascii c2 in
  Nat.eqb a 194 && (Nat.eqb b 133 || Nat.eqb b 160).

Definition is_space3 (c1 c2 c3 : ascii) : bool :=
  let a := nat_of_ascii c1 in
  let b := nat_of_ascii c2 in
  let c := nat_of_ascii c3 in
  (Nat.eqb a 225 && Nat.eqb b 154 && Nat.eqb c 128)
  || (Nat.eqb a 226 && Nat.eqb b 128
      && ((Nat.leb 128 c && Nat.leb c 138)
          || Nat.eqb c 168 || Nat.eqb c 169 || Nat.eqb c 175))
  || (Nat.eqb a 226 && Nat.eqb b 129 && Nat.eqb c 159)
  || (Nat.eqb a 227 && Nat.eqb b 128 && Nat.eqb c 128).

(** [s.lstrip()]. *)
Fixpoint lstrip (s : string) : string :=
  match s with
  | "" => ""
  | String c1 r1 =>
      if is_space1 c1 then lstrip r1
      else match r1 with
           | "" => s
           | String c2 r2 =>
               if is_space2 c1 c2 then lstrip r2
               else match r2 with
                    | "" => s
                    | String c3 r3 =>
                        if is_space3 c1 c2 c3 then lstrip r3 else s
                    end
           end
  end.

(** [lstrip] on the reversed text: the bytes of a code point arrive last
    byte first. *)
Fixpoint lstrip_rev (s : string) : string :=
  match s with
  | "" => ""
  | String c1 r1 =>
      if is_space1 c1 then lstrip_rev r1
      else match r1 with
           | "" => s
           | String c2 r2 =>
               if is_space2 c2 c1 then lstrip_rev r2
               else match r2 with
                    | "" => s
                    | String c3 r3 =>
                        if is_space3 c3 c2 c1 then lstrip_rev r3 else s
                    end
           end
  end.

Definition rstrip (s : string) : string :=
  String.rev (lstrip_rev (String.rev s)).

(** [s.strip()]. *)
Definition strip (s : string) : string := lstrip (rstrip s).

(** Whether a text begins with a whitespace code point, read forwards and
    read from its end. *)
Definition starts_space (s : string) : bool :=
  match s with
  | "" => false
  | String c1 r1 =>
      is_space1 c1
      || match r1 with
         | "" => false
         | String c2 r2 =>
             is_space2 c1 c2
             || match r2 with
                | "" => false
                | String c3 _ => is_space3 c1 c2 c3
                end
         end
  end.

Definition starts_space_rev (s : string) : bool :=
  match s with
  | "" => false
  | String c1 r1 =>
      is_space1 c1
      || match r1 with
         | "" => false
         | String c2 r2 =>
             is_space2 c2 c1
             || match r2 with
                | "" => false
                | String c3 _ => is_space3 c3 c2 c1
                end
         end
  end.

(** Whether a text ends with a whitespace code point. *)
Definition ends_space (s : string) : bool := starts_space_rev (String.rev s).

(** [s.lower()] on the ASCII letters. The source only compares the result
    with ['true'], and no character outside ASCII lowers to an ASCII
    letter of that word. *)
Definition lower_ascii (c : ascii) : ascii :=
  let n := nat_of_ascii c in
  if Nat.leb 65 n && Nat.leb n 90 then ascii_of_nat (n + 32) else c.

Fixpoint lower (s : string) : string :=
  match s with
  | "" => ""
  | String c s' => String (lower_ascii c) (lower s')
  end.

(** The code points of a text, each as a one-character [str]: a byte of
    the form 10xxxxxx continues the code point before it. *)
Definition is_continuation (c : ascii) : bool :=
  let n := nat_of_ascii c in Nat.leb 128 n && Nat.leb n 191.

Fixpoint chars_go (cur : string) (s : string) : list string :=
  match s with
  | "" => [cur]
  | String c s' =>
      if is_continuation c then chars_go (cur ++ String c "") s'
      else cur :: chars_go (String c "") s'
  end.

Definition chars (s : string) : list string :=
  match s with
  | "" => []
  | String c s' => chars_go (String c "") s'
  end.

(** The number of occurrences of a character. *)
Fixpoint count_char (c : ascii) (s : string) : nat :=
  match s with
  | "" => 0
  | String c' s' => (if Ascii.eqb c' c then 1 else 0) + count_char c s'
  end.

(** The decimal value of a text of ASCII digits: the [int] of the concrete
    calls further down. It agrees with Python's [int] on texts made of
    ASCII digits only and on texts that hold an ASCII letter, which
    Python rejects as well. *)
Fixpoint digits_go (acc : Z) (s : string) : option Z :=
  match s with
  | "" => Some acc
  | String c s' =>
      let n := nat_of_ascii c in
      if Nat.leb 48 n && Nat.leb n 57
      then digits_go (10 * acc + Z.of_nat (n - 48)) s'
      else None
  end.

Definition ascii_int (s : string) : option Z :=
  match s with
  | "" => None
  | _ => digits_go 0 s
  end.

(* ===================================================================== *)
(** ** Python values, dictionaries and exceptions *)
(* ===================================================================== *)

(** The values that travel through result dictionaries and template data.
    A nested [dict] keeps its items in insertion order. *)
Inductive pyval :=
| VNone
| VBool (b : bool)
| VInt (z : Z)
| VStr (s : string)
| VList (l : list pyval)
| VDict (d : list (string * pyval)).

(** Truth value of an object, as [if x] and [not x] take it. *)
Definition truthy (v : pyval) : bool :=
  match v with
  | VNone => false
  | VBool b => b
  | VInt z => negb (Z.eqb z 0)
  | VStr s => negb (String.eqb s "")
  | VList l => match l with [] => false | _ => true end
  | VDict d => match d with [] => false | _ => true end
  end.

(** Truth value of an optional [str], as read from the environment or a
    keyword argument. *)
Definition truthy_opt (o : option string) : bool :=
  match o with
  | Some s => negb (String.eqb s "")
  | None => false
  end.

(** [type(v).__name__]. *)
Definition type_name (v : pyval) : string :=
  match v with
  | VNone => "NoneType"
  | VBool _ => "bool"
  | VInt _ => "int"
  | VStr _ => "str"
  | VList _ => "list"
  | VDict _ => "dict"
  end.

(** Lookup by key in a dict kept as its list of items, then [d.get(k)]
    and [d.get(k, default)]. *)
Fixpoint assoc {A} (k : string) (d : list (string * A)) : option A :=
  match d with
  | [] => None
  | (k', v) :: d' => if String.eqb k' k then Some v else assoc k d'
  end.

Definition get (d : list (string * pyval)) (k : string) : pyval :=
  default VNone (assoc k d).

Definition get_or (d : list (string * pyval)) (k : string) (dflt : pyval) : pyval :=
  default dflt (assoc k d).

(** The exception classes the program distinguishes, each standing for
    itself and the subclasses not listed. [SMTPAuthenticationError] is a
    subclass of [SMTPException], which is a subclass of [OSError]; every
    class is a subclass of [Exception]. *)
Inductive exn_class :=
| Exception
| KeyError
| ValueError
| TypeError
| AttributeError
| OSError
| SMTPException
| SMTPAuthenticationError.

Definition exn_class_eqb (a b : exn_class) : bool :=
  match a, b with
  | Exception, Exception | KeyError, KeyError | ValueError, ValueError
  | TypeError, TypeError | AttributeError, AttributeError
  | OSError, OSError | SMTPException, SMTPException
  | SMTPAuthenticationError, SMTPAuthenticationError => true
  | _, _ => false
  end.

Definition subclass (a b : exn_class) : bool :=
  match b with
  | Exception => true
  | OSError =>
      match a with
      | OSError | SMTPException | SMTPAuthenticationError => true
      | _ => false
      end
  | SMTPException =>
      match a with
      | SMTPException | SMTPAuthenticationError => true
      | _ => false
      end
  | _ => exn_class_eqb a b
  end.

(** A raised exception: its class and the text [str(e)] gives. *)
Record exn := Raise { class_of : exn_class; str : string }.

(** Whether [except cls] catches [e]. *)
Definition isinstance (e : exn) (cls : exn_class) : bool :=
  subclass (class_of e) cls.

(** A result dictionary that reports a failure. *)
Definition failure (error error_code : string) : gmap string pyval :=
  {[ "success" := VBool false;
     "error" := VStr error;
     "error_code" := VStr error_code ]}.

(* ===================================================================== *)
(** ** The message and the world around a call *)
(* ===================================================================== *)

(** One part of a multipart message. An attachment keeps the bytes read
    from the file; [encode_base64] only changes their transfer encoding,
    recorded in the part's headers. *)
Inductive mime_part :=
| MIMEText (text subtype charset : string)
| MIMEBase (maintype subtype : string) (payload : list Byte.byte)
           (part_headers : list (string * string)).

Record mime_message := MIMEMultipart {
  headers : list (string * string);
  parts : list mime_part
}.

(** [msg[k] = v]. *)
Definition set_header (msg : mime_message) (k v : string) : mime_message :=
  {| headers := (headers msg ++ [(k, v)])%list; parts := parts msg |}.

(** [msg.attach(p)]. *)
Definition attach (msg : mime_message) (p : mime_part) : mime_message :=
  {| headers := headers msg; parts := (parts msg ++ [p])%list |}.

(** An entry of the attachment directory: its name, whether it is a
    regular file, and what opening and reading it gives. *)
Record path := {
  name : string;
  is_file : bool;
  read : exn + list Byte.byte
}.

(** The calls made on [smtplib] and on the session object it returns. *)
Inductive smtp_call :=
| SMTP (host : string) (port : Z)
| SMTP_SSL (host : string) (port : Z)
| starttls
| login (user password : string)
| send_message (msg : mime_message) (from_addr : string) (to_addrs : list string)
| quit.

(** Everything outside the program that a call reads.
    - [environ]: the process environment, [os.environ].
    - [attachments_dir]: [None] when [data/inputs/attachments] does not
      exist; otherwise what listing it gives, an exception or its entries.
    - [smtplib]: the mail transport. Given the calls made so far, the last
      one being the call in progress, it says whether that call raises. *)
Record world := {
  environ : gmap string string;
  attachments_dir : option (exn + list path);
  smtplib : list smtp_call -> option exn
}.

(** Computations that talk to the transport: the state is the history of
    calls, oldest first; the outcome is a value or a raised exception. *)
Definition M (A : Type) : Type :=
  list smtp_call -> (exn + A) * list smtp_call.

Definition ret {A} (a : A) : M A := fun h => (inr a, h).

Definition bind {A B} (m : M A) (k : A -> M B) : M B :=
  fun h =>
    match m h with
    | (inl e, h') => (inl e, h')
    | (inr a, h') => k a h'
    end.

Notation "m1 ;; m2" := (bind m1 (fun _ => m2))
  (at level 100, right associativity).

(** One call on the transport: it is recorded, then answered. *)
Definition call (w : world) (c : smtp_call) : M unit :=
  fun h =>
    let h' := (h ++ [c])%list in
    match smtplib w h' with
    | Some e => (inl e, h')
    | None => (inr tt, h')
    end.


(* ===================================================================== *)
(** ** [str.format] and the four layouts *)
(* ===================================================================== *)

(** A format string read as literal text and replacement fields. *)
Inductive segment :=
| Lit (text : string)
| Field (name : string).

Definition lit_cons (c : ascii) (segs : list segment) : list segment :=
  match segs with
  | Lit s :: rest => Lit (String c s) :: rest
  | _ => Lit (String c "") :: segs
  end.

(** Characters that end a plain field name: conversion, format spec,
    attribute and index access, and a nested brace. *)
Definition in_field_syntax (c : ascii) : bool :=
  Ascii.eqb c "!" || Ascii.eqb c ":" || Ascii.eqb c "." || Ascii.eqb c "["
  || Ascii.eqb c "{".

(** The grammar of format strings the layouts are written in: literal
    text, the escapes [{{] and [}}], and [{name}]. [field] holds the name
    read so far while inside braces. [None] is a format string outside
    this grammar, as is a field without a name or with a positional one. *)
Fixpoint parse_go (s : string) (field : option string) : option (list segment) :=
  match field with
  | Some name =>
      match s with
      | "" => None
      | String c r =>
          if Ascii.eqb c "}" then
            match name with
            | "" => None
            | String d _ =>
                if Nat.leb 48 (nat_of_ascii d) && Nat.leb (nat_of_ascii d) 57
                then None
                else cons (Field name) <$> parse_go r None
            end
          else if in_field_syntax c then None
          else parse_go r (Some (name ++ String c ""))
      end
  | None =>
      match s with
      | "" => Some []
      | String c r =>
          if Ascii.eqb c "{" then
            match r with
            | "" => None
            | String c2 r2 =>
                if Ascii.eqb c2 "{" then lit_cons "{" <$> parse_go r2 None
                else parse_go r (Some "")
            end
          else if Ascii.eqb c "}" then
            match r with
            | "" => None
            | String c2 r2 =>
                if Ascii.eqb c2 "}" then lit_cons "}" <$> parse_go r2 None
                else None
            end
          else lit_cons c <$> parse_go r None
      end
  end.

Definition parse (s : string) : option (list segment) := parse_go s None.

(** The names of the replacement fields, in order of appearance. *)
Fixpoint fields (segs : list segment) : list string :=
  match segs with
  | [] => []
  | Lit _ :: rest => fields rest
  | Field name :: rest => name :: fields rest
  end.

(** The literal texts between the fields, in order of appearance. *)
Fixpoint texts (segs : list segment) : list string :=
  match segs with
  | [] => []
  | Lit s :: rest => s :: texts rest
  | Field _ :: rest => texts rest
  end.

Definition notification_layout : string := lines [
  "";
  "<!DOCTYPE html>";
  "<html>";
  "<head>";
  "    <meta charset=" ++ dq ++ "UTF-8" ++ dq ++ ">";
  "    <meta name=" ++ dq ++ "viewport" ++ dq ++ " content=" ++ dq ++ "width=device-width, initial-scale=1.0" ++ dq ++ ">";
  "    <style>";
  "        body {{ font-family: 'Segoe UI', Tahoma, Geneva, Verdana, sans-serif; line-height: 1.6;";
  "               color: #333; margin: 0; padding: 0; background-color: #f4f4f4; }}";
  "        .container {{ max-width: 600px; margin: 20px auto; background: #ffffff; border-radius: 10px;";
  "                      box-shadow: 0 2px 10px rgba(0,0,0,0.1); overflow: hidden; }}";
  "        .header {{ background: linear-gradient(135deg, #667eea 0%, #764ba2 100%); color: white;";
  "                   padding: 30px; text-align: center; }}";
  "        .header h1 {{ margin: 0; font-size: 28px; font-weight: 600; }}";
  "        .content {{ padding: 30px; }}";
  "        .content h2 {{ color: #667eea; margin-top: 0; }}";
  "        .message {{ background: #f8f9fa; padding: 20px; border-left: 4px solid #667eea;";
  "                    border-radius: 5px; margin: 20px 0; }}";
  "        .footer {{ background: #f8f9fa; padding: 20px; text-align: center; color: #666;";
  "                   font-size: 14px; border-top: 1px solid #e0e0e0; }}";
  "        .button {{ display: inline-block; padding: 12px 30px; background: #667eea; color: white;";
  "                   text-decoration: none; border-radius: 5px; margin: 20px 0; font-weight: 600; }}";
  "        .button:hover {{ background: #5568d3; }}";
  "    </style>";
  "</head>";
  "<body>";
  "    <div class=" ++ dq ++ "container" ++ dq ++ ">";
  "        <div class=" ++ dq ++ "header" ++ dq ++ ">";
  "            <h1>📢 {title}</h1>";
  "        </div>";
  "        <div class=" ++ dq ++ "content" ++ dq ++ ">";
  "            <h2>{heading}</h2>";
  "            <div class=" ++ dq ++ "message" ++ dq ++ ">";
  "                {message}";
  "            </div>";
  "            {button_html}";
  "            {extra_content}";
  "        </div>";
  "        <div class=" ++ dq ++ "footer" ++ dq ++ ">";
  "            {footer}";
  "        </div>";
  "    </div>";
  "</body>";
  "</html>";
  ""
].

Definition welcome_layout : string := lines [
  "";
  "<!DOCTYPE html>";
  "<html>";
  "<head>";
  "    <meta charset=" ++ dq ++ "UTF-8" ++ dq ++ ">";
  "    <meta name=" ++ dq ++ "viewport" ++ dq ++ " content=" ++ dq ++ "width=device-width, initial-scale=1.0" ++ dq ++ ">";
  "    <style>";
  "        body {{ font-family: 'Segoe UI', Tahoma, Geneva, Verdana, sans-serif; line-height: 1.6;";
  "               color: #333; margin: 0; padding: 0; background-color: #f4f4f4; }}";
  "        .container {{ max-width: 600px; margin: 20px auto; background: #ffffff; border-radius: 10px;";
  "                      box-shadow: 0 2px 10px rgba(0,0,0,0.1); overflow: hidden; }}";
  "        .header {{ background: linear-gradient(135deg, #43e97b 0%, #38f9d7 100%); color: white;";
  "                   padding: 40px; text-align: center; }}";
  "        .header h1 {{ margin: 0; font-size: 32px; font-weight: 600; }}";
  "        .welcome-icon {{ font-size: 60px; margin-bottom: 10px; }}";
  "        .content {{ padding: 30px; }}";
  "        .welcome-message {{ font-size: 18px; margin: 20px 0; color: #555; }}";
  "        .features {{ background: #f8f9fa; padding: 20px; border-radius: 5px; margin: 20px 0; }}";
  "        .feature-item {{ margin: 10px 0; padding-left: 25px; position: relative; }}";
  "        .feature-item:before {{ content: " ++ dq ++ "✓" ++ dq ++ "; position: absolute; left: 0; color: #43e97b;";
  "                                font-weight: bold; }}";
  "        .button {{ display: inline-block; padding: 15px 40px; background: #43e97b; color: white;";
  "                   text-decoration: none; border-radius: 5px; margin: 20px 0; font-weight: 600;";
  "                   font-size: 16px; }}";
  "        .button:hover {{ background: #3bd66f; }}";
  "        .footer {{ background: #f8f9fa; padding: 20px; text-align: center; color: #666;";
  "                   font-size: 14px; border-top: 1px solid #e0e0e0; }}";
  "    </style>";
  "</head>";
  "<body>";
  "    <div class=" ++ dq ++ "container" ++ dq ++ ">";
  "        <div class=" ++ dq ++ "header" ++ dq ++ ">";
  "            <div class=" ++ dq ++ "welcome-icon" ++ dq ++ ">🎉</div>";
  "            <h1>{title}</h1>";
  "        </div>";
  "        <div class=" ++ dq ++ "content" ++ dq ++ ">";
  "            <div class=" ++ dq ++ "welcome-message" ++ dq ++ ">";
  "                {message}";
  "            </div>";
  "            {features_html}";
  "            {button_html}";
  "            {extra_content}";
  "        </div>";
  "        <div class=" ++ dq ++ "footer" ++ dq ++ ">";
  "            {footer}";
  "        </div>";
  "    </div>";
  "</body>";
  "</html>";
  ""
].

Definition alert_layout : string := lines [
  "";
  "<!DOCTYPE html>";
  "<html>";
  "<head>";
  "    <meta charset=" ++ dq ++ "UTF-8" ++ dq ++ ">";
  "    <meta name=" ++ dq ++ "viewport" ++ dq ++ " content=" ++ dq ++ "width=device-width, initial-scale=1.0" ++ dq ++ ">";
  "    <style>";
  "        body {{ font-family: 'Segoe UI', Tahoma, Geneva, Verdana, sans-serif; line-height: 1.6;";
  "               color: #333; margin: 0; padding: 0; background-color: #f4f4f4; }}";
  "        .container {{ max-width: 600px; margin: 20px auto; background: #ffffff; border-radius: 10px;";
  "                      box-shadow: 0 2px 10px rgba(0,0,0,0.1); overflow: hidden; }}";
  "        .header {{ background: linear-gradient(135deg, #f093fb 0%, #f5576c 100%); color: white;";
  "                   padding: 30px; text-align: center; }}";
  "        .header h1 {{ margin: 0; font-size: 28px; font-weight: 600; }}";
  "        .alert-icon {{ font-size: 60px; margin-bottom: 10px; }}";
  "        .content {{ padding: 30px; }}";
  "        .alert-box {{ background: #fff3cd; border-left: 4px solid #f5576c; padding: 20px;";
  "                      border-radius: 5px; margin: 20px 0; }}";
  "        .alert-title {{ color: #f5576c; font-weight: 600; font-size: 18px; margin-bottom: 10px; }}";
  "        .details {{ background: #f8f9fa; padding: 15px; border-radius: 5px; margin: 20px 0; }}";
  "        .button {{ display: inline-block; padding: 12px 30px; background: #f5576c; color: white;";
  "                   text-decoration: none; border-radius: 5px; margin: 20px 0; font-weight: 600; }}";
  "        .button:hover {{ background: #e04656; }}";
  "        .footer {{ background: #f8f9fa; padding: 20px; text-align: center; color: #666;";
  "                   font-size: 14px; border-top: 1px solid #e0e0e0; }}";
  "    </style>";
  "</head>";
  "<body>";
  "    <div class=" ++ dq ++ "container" ++ dq ++ ">";
  "        <div class=" ++ dq ++ "header" ++ dq ++ ">";
  "            <div class=" ++ dq ++ "alert-icon" ++ dq ++ ">⚠️</div>";
  "            <h1>{title}</h1>";
  "        </div>";
  "        <div class=" ++ dq ++ "content" ++ dq ++ ">";
  "            <div class=" ++ dq ++ "alert-box" ++ dq ++ ">";
  "                <div class=" ++ dq ++ "alert-title" ++ dq ++ ">{alert_title}</div>";
  "                <div>{message}</div>";
  "            </div>";
  "            {details_html}";
  "            {button_html}";
  "            {extra_content}";
  "        </div>";
  "        <div class=" ++ dq ++ "footer" ++ dq ++ ">";
  "            {footer}";
  "        </div>";
  "    </div>";
  "</body>";
  "</html>";
  ""
].

Definition report_layout : string := lines [
  "";
  "<!DOCTYPE html>";
  "<html>";
  "<head>";
  "    <meta charset=" ++ dq ++ "UTF-8" ++ dq ++ ">";
  "    <meta name=" ++ dq ++ "viewport" ++ dq ++ " content=" ++ dq ++ "width=device-width, initial-scale=1.0" ++ dq ++ ">";
  "    <style>";
  "        body {{ font-family: 'Segoe UI', Tahoma, Geneva, Verdana, sans-serif; line-height: 1.6;";
  "               color: #333; margin: 0; padding: 0; background-color: #f4f4f4; }}";
  "        .container {{ max-width: 600px; margin: 20px auto; background: #ffffff; border-radius: 10px;";
  "                      box-shadow: 0 2px 10px rgba(0,0,0,0.1); overflow: hidden; }}";
  "        .header {{ background: linear-gradient(135deg, #4facfe 0%, #00f2fe 100%); color: white;";
  "                   padding: 30px; text-align: center; }}";
  "        .header h1 {{ margin: 0; font-size: 28px; font-weight: 600; }}";
  "        .content {{ padding: 30px; }}";
  "        .summary {{ background: #f8f9fa; padding: 20px; border-radius: 5px; margin: 20px 0; }}";
  "        .summary-title {{ color: #4facfe; font-weight: 600; font-size: 18px; margin-bottom: 15px; }}";
  "        .stats {{ display: flex; flex-wrap: wrap; gap: 10px; margin: 20px 0; }}";
  "        .stat-card {{ flex: 1; min-width: 150px; background: white; border: 2px solid #e0e0e0;";
  "                      border-radius: 5px; padding: 15px; text-align: center; }}";
  "        .stat-value {{ font-size: 32px; font-weight: 600; color: #4facfe; }}";
  "        .stat-label {{ color: #666; font-size: 14px; margin-top: 5px; }}";
  "        .button {{ display: inline-block; padding: 12px 30px; background: #4facfe; color: white;";
  "                   text-decoration: none; border-radius: 5px; margin: 20px 0; font-weight: 600; }}";
  "        .button:hover {{ background: #3d9ee6; }}";
  "        .footer {{ background: #f8f9fa; padding: 20px; text-align: center; color: #666;";
  "                   font-size: 14px; border-top: 1px solid #e0e0e0; }}";
  "    </style>";
  "</head>";
  "<body>";
  "    <div class=" ++ dq ++ "container" ++ dq ++ ">";
  "        <div class=" ++ dq ++ "header" ++ dq ++ ">";
  "            <h1>📊 {title}</h1>";
  "        </div>";
  "        <div class=" ++ dq ++ "content" ++ dq ++ ">";
  "            <div class=" ++ dq ++ "summary" ++ dq ++ ">";
  "                <div class=" ++ dq ++ "summary-title" ++ dq ++ ">{summary_title}</div>";
  "                {message}";
  "            </div>";
  "            {stats_html}";
  "            {button_html}";
  "            {extra_content}";
  "        </div>";
  "        <div class=" ++ dq ++ "footer" ++ dq ++ ">";
  "            {footer}";
  "        </div>";
  "    </div>";
  "</body>";
  "</html>";
  ""
].
(** The table of layouts, in source order. *)
Definition EMAIL_TEMPLATES : list (string * string) :=
  [("notification", notification_layout);
   ("welcome", welcome_layout);
   ("alert", alert_layout);
   ("report", report_layout)].

(** The [i]-th literal text of the welcome layout, braces unescaped. *)
Definition welcome_text (i : nat) : string :=
  nth i (texts (default [] (parse welcome_layout))) "".

(* ===================================================================== *)
(** ** Concrete worlds *)
(* ===================================================================== *)

(** The environment the test suite sets up. *)
Definition smtp_env : gmap string string :=
  {[ "SMTP_HOST" := "smtp.example.com";
     "SMTP_PORT" := "587";
     "SMTP_USERNAME" := "test@example.com";
     "SMTP_PASSWORD" := "test-password";
     "SMTP_USE_TLS" := "true" ]}.

(** A transport on which every call succeeds. *)
Definition working_smtp : list smtp_call -> option exn := fun _ => None.

(** A transport on which [login] raises [e] and every other call
    succeeds. *)
Definition login_raises (e : exn) : list smtp_call -> option exn :=
  fun h =>
    match last h with
    | Some (login _ _) => Some e
    | _ => None
    end.

(** A transport that refuses to deliver a message one of whose
    recipients is [bad]. *)
Definition rejects (bad : string) : list smtp_call -> option exn :=
  fun h =>
    match last h with
    | Some (send_message _ _ to_addrs) =>
        if existsb (String.eqb bad) to_addrs
        then Some (Raise SMTPException ("{'" ++ bad ++ "': (550, b'User unknown')}"))
        else None
    | _ => None
    end.

Definition world_of (env : gmap string string)
    (smtp : list smtp_call -> option exn) : world :=
  {| environ := env; attachments_dir := None; smtplib := smtp |}.

(** What [smtplib] raises when the server rejects the credentials. *)
Definition auth_rejected : exn :=
  Raise SMTPAuthenticationError
        "(535, b'5.7.8 Username and Password not accepted')".

(** The worlds of the test suite and of the examples in the
    specification. *)
Definition working_world : world := world_of smtp_env working_smtp.

Definition no_env_world : world := world_of ∅ working_smtp.

Definition half_configured_env : gmap string string :=
  {[ "SMTP_PORT" := "";
     "SMTP_USERNAME" := "test@example.com";
     "SMTP_PASSWORD" := "test-password" ]}.

Definition half_configured_world : world :=
  world_of half_configured_env working_smtp.



Definition ssl_env : gmap string string :=
  {[ "SMTP_HOST" := "smtp.example.com";
     "SMTP_PORT" := "465";
     "SMTP_USERNAME" := "test@example.com";
     "SMTP_PASSWORD" := "test-password";
     "SMTP_USE_TLS" := "false" ]}.

Definition ssl_world : world := world_of ssl_env working_smtp.

Definition auth_rejecting_world : world :=
  world_of smtp_env (login_raises auth_rejected).

Definition mock_auth_error_world : world :=
  world_of smtp_env (login_raises (Raise Exception "Authentication failed")).

Definition rejecting_world : world := world_of smtp_env (rejects "bad@x.com").

(** The message of the test suite's plain send. *)
Definition test_message : mime_message :=
  {| headers := [("From", "test@example.com"); ("To", "user@example.com");
                 ("Subject", "Test Email")];
     parts := [MIMEText "Test body" "plain" "utf-8"] |}.

(** The welcome data of the specification's example. *)
Definition welcome_data : list (string * pyval) :=
  [("title", VStr "Welcome"); ("message", VStr "Thanks for joining");
   ("features", VList [VStr "f1"; VStr "f2"])].

(** Python's [str] on the constants [None], [True] and [False]. The
    concrete calls further down hold no other value that is not a [str]. *)
Definition str_of_constant (v : pyval) : string :=
  match v with
  | VNone => "None"
  | VBool true => "True"
  | VBool false => "False"
  | _ => ""
  end.

(** Notification data that leaves out the title and the heading. *)
Definition message_only : list (string * pyval) :=
  [("message", VStr "Your account is active")].

(** A transport on which opening the connection raises [e]. *)
Definition connect_raises (e : exn) : list smtp_call -> option exn :=
  fun h =>
    match last h with
    | Some (SMTP _ _) | Some (SMTP_SSL _ _) => Some e
    | _ => None
    end.

(** A transport on which closing the session raises [e] and every other
    call succeeds. *)
Definition quit_raises (e : exn) : list smtp_call -> option exn :=
  fun h =>
    match last h with
    | Some quit => Some e
    | _ => None
    end.

(** What the socket layer raises when nothing listens on the port. *)
Definition connection_refused : exn :=
  Raise OSError "[Errno 111] Connection refused".

(** What [smtplib] raises when the server has gone before [quit]. *)
Definition server_disconnected : exn :=
  Raise SMTPException "Connection unexpectedly closed".

Definition refusing_world : world :=
  world_of smtp_env (connect_raises connection_refused).

Definition disconnecting_world : world :=
  world_of smtp_env (quit_raises server_disconnected).

(** An environment that spells the secure-upgrade switch [yes]. *)
Definition yes_env : gmap string string :=
  {[ "SMTP_HOST" := "smtp.example.com";
     "SMTP_PORT" := "587";
     "SMTP_USERNAME" := "test@example.com";
     "SMTP_PASSWORD" := "test-password";
     "SMTP_USE_TLS" := "yes" ]}.

Definition yes_world : world := world_of yes_env working_smtp.

(** An attachment directory with a sub-directory, a file that reads and
    a file that does not. *)
Definition report_pdf : path :=
  {| name := "report.pdf"; is_file := true;
     read := inr [Byte.x25; Byte.x50; Byte.x44; Byte.x46] |}.

Definition archive_dir : path :=
  {| name := "archive"; is_file := false;
     read := inl (Raise OSError "[Errno 21] Is a directory: 'archive'") |}.


Definition world_with_files (entries : list path) : world :=
  {| environ := smtp_env;
     attachments_dir := Some (inr entries);
     smtplib := working_smtp |}.

(** The [i]-th literal text of a layout, braces unescaped. *)
Definition layout_text (layout : string) (i : nat) : string :=
  nth i (texts (default [] (parse layout))) "".

(** Alert data with two details, and report data with two stats, the
    second without a value. *)
Definition alert_data : list (string * pyval) :=
  [("title", VStr "Security alert"); ("message", VStr "Check your account");
   ("details", VDict [("time", VStr "10:00"); ("ip", VStr "192.168.1.1")])].

Definition report_data : list (string * pyval) :=
  [("title", VStr "January"); ("message", VStr "Key figures");
   ("stats", VList [VDict [("label", VStr "users"); ("value", VStr "1,234")];
                    VDict [("label", VStr "growth")]])].

(** An address without a comma and without whitespace at either end. *)
Definition clean_address (a : string) : bool :=
  Nat.eqb (count_char "," a) 0 && negb (starts_space a) && negb (ends_space a).

(** The word [true] in any mix of upper and lower case. *)
Definition spells_true (v : string) : bool :=
  match v with
  | String a (String b (String c (String d ""))) =>
      (Ascii.eqb a "t" || Ascii.eqb a "T")
      && (Ascii.eqb b "r" || Ascii.eqb b "R")
      && (Ascii.eqb c "u" || Ascii.eqb c "U")
      && (Ascii.eqb d "e" || Ascii.eqb d "E")
  | _ => false
  end.
(* ===================================================================== *)
(** ** [send_email] and [send_bulk_email] *)
(* ===================================================================== *)

Section Prefab.

(** Python's [int] on a [str]; [None] stands for [ValueError]. *)
Variable int : string -> option Z.

(** Python's [str] on a value that is not itself a [str]: [None], a
    [bool], an [int], a [list] or a [dict]. *)
Variable py_str : pyval -> string.

Variable w : world.

(** [[addr.strip() for addr in s.split(',')]]. *)
Definition parse_addresses (s : string) : list string :=
  strip <$> split "," s.

(** [parse_addresses(x) if x else []] for the optional [cc] and [bcc]. *)
Definition optional_addresses (o : option string) : list string :=
  match o with
  | Some s => if String.eqb s "" then [] else parse_addresses s
  | None => []
  end.

(** The part built for one attachment file. *)
Definition attachment_part (f : path) (payload : list Byte.byte) : mime_part :=
  MIMEBase "application" "octet-stream" payload
    [("Content-Transfer-Encoding", "base64");
     ("Content-Disposition", "attachment; filename=" ++ name f)].

(** The loop over [attachment_files]: the first file that cannot be read
    ends the call with [ATTACHMENT_ERROR]. *)
Fixpoint attach_files (files : list path) (msg : mime_message)
  : gmap string pyval + mime_message :=
  match files with
  | [] => inr msg
  | file_path :: rest =>
      match read file_path with
      | inl e =>
          inl (failure ("处理附件失败 (" ++ name file_path ++ "): " ++ str e)
                       "ATTACHMENT_ERROR")
      | inr payload => attach_files rest (attach msg (attachment_part file_path payload))
      end
  end.

(** The message object before attachments. *)
Definition new_message (smtp_username to subject : string) (cc : option string)
    (body body_type : string) : mime_message :=
  let msg := MIMEMultipart [] [] in
  let msg := set_header msg "From" smtp_username in
  let msg := set_header msg "To" to in
  let msg := set_header msg "Subject" subject in
  let msg := if truthy_opt cc then set_header msg "Cc" (default "" cc) else msg in
  attach msg (MIMEText body body_type "utf-8").

(** Opening the channel: a plain connection upgraded in place when
    [smtp_use_tls] holds, a channel secured from the start otherwise. *)
Definition connect (smtp_use_tls : bool) (smtp_host : string) (port : Z) : M unit :=
  if smtp_use_tls
  then (call w (SMTP smtp_host port) ;; call w starttls)
  else call w (SMTP_SSL smtp_host port).

(** The transport block: connect, authenticate, deliver, close. *)
Definition deliver (smtp_use_tls : bool) (smtp_host : string) (port : Z)
    (smtp_username smtp_password : string) (msg : mime_message)
    (all_recipients : list string) : M unit :=
  connect smtp_use_tls smtp_host port ;;
  call w (login smtp_username smtp_password) ;;
  call w (send_message msg smtp_username all_recipients) ;;
  call w quit.

(** The three [except] clauses of the transport block, in source order. *)
Definition transport_failure (e : exn) : gmap string pyval :=
  if isinstance e SMTPAuthenticationError then
    failure "SMTP 认证失败，请检查用户名和密码" "SMTP_AUTH_ERROR"
  else if isinstance e SMTPException then
    failure ("SMTP 错误: " ++ str e) "SMTP_ERROR"
  else
    failure ("连接 SMTP 服务器失败: " ++ str e) "SMTP_CONNECTION_ERROR".

(** [os.environ.get(k)], and the value of a setting once the
    configuration check has found it present. *)
Definition getenv (k : string) : option string := environ w !! k.
Definition setting (k : string) : string := default "" (getenv k).

(** [os.environ.get('SMTP_USE_TLS', 'true').lower() == 'true']. *)
Definition use_tls : bool :=
  String.eqb (lower (default "true" (getenv "SMTP_USE_TLS"))) "true".

(** The attachment block: the exception raised by listing the directory
    (the outermost handler takes over), or else the error dictionary of
    the first unreadable file, or the message with every file attached. *)
Definition attach_all (msg : mime_message)
  : exn + (gmap string pyval + mime_message) :=
  match attachments_dir w with
  | None => inr (inr msg)
  | Some (inl e) => inl e
  | Some (inr entries) => inr (attach_files (filter is_file entries) msg)
  end.

(** The list built by the four configuration checks. *)
Definition missing_of (smtp_host smtp_port smtp_username smtp_password : option string)
  : list string :=
  let missing_configs := [] in
  let missing_configs :=
    if truthy_opt smtp_host then missing_configs
    else (missing_configs ++ ["SMTP_HOST"])%list in
  let missing_configs :=
    if truthy_opt smtp_port then missing_configs
    else (missing_configs ++ ["SMTP_PORT"])%list in
  let missing_configs :=
    if truthy_opt smtp_username then missing_configs
    else (missing_configs ++ ["SMTP_USERNAME"])%list in
  if truthy_opt smtp_password then missing_configs
  else (missing_configs ++ ["SMTP_PASSWORD"])%list.

(** The dictionary returned after a delivery. *)
Definition sent (to_addresses cc_addresses bcc_addresses : list string)
  : gmap string pyval :=
  {[ "success" := VBool true;
     "message" := VStr "邮件发送成功";
     "recipients" := VList (VStr <$> to_addresses);
     "cc" := match cc_addresses with
             | [] => VNone
             | _ => VList (VStr <$> cc_addresses)
             end;
     "bcc_count" := match bcc_addresses with
                    | [] => VInt 0
                    | _ => VInt (Z.of_nat (length bcc_addresses))
                    end ]}.

Definition send_email (to subject body : string) (cc bcc : option string)
    (body_type : string) (h : list smtp_call)
  : gmap string pyval * list smtp_call :=
  let smtp_host := getenv "SMTP_HOST" in
  let smtp_port := getenv "SMTP_PORT" in
  let smtp_username := getenv "SMTP_USERNAME" in
  let smtp_password := getenv "SMTP_PASSWORD" in
  let smtp_use_tls := use_tls in
  let missing_configs := missing_of smtp_host smtp_port smtp_username smtp_password in
  match missing_configs with
  | _ :: _ =>
      (<["missing_configs" := VList (VStr <$> missing_configs)]>
         (failure ("缺少必需的 SMTP 配置: " ++ join ", " missing_configs)
                  "MISSING_SMTP_CONFIG"), h)
  | [] =>
  if String.eqb to "" then
    (failure "收件人地址 (to) 必须是非空字符串" "INVALID_RECIPIENT", h)
  else if String.eqb subject "" then
    (failure "邮件主题 (subject) 必须是非空字符串" "INVALID_SUBJECT", h)
  else if String.eqb body "" then
    (failure "邮件正文 (body) 必须是非空字符串" "INVALID_BODY", h)
  else if negb (String.eqb body_type "plain" || String.eqb body_type "html") then
    (failure "body_type 必须是 'plain' 或 'html'" "INVALID_BODY_TYPE", h)
  else
  let to_addresses := parse_addresses to in
  let cc_addresses := optional_addresses cc in
  let bcc_addresses := optional_addresses bcc in
  let msg := new_message (setting "SMTP_USERNAME") to subject cc body body_type in
  match attach_all msg with
  | inl e => (failure (str e) "UNEXPECTED_ERROR", h)
  | inr (inl attachment_error) => (attachment_error, h)
  | inr (inr msg) =>
  match int (setting "SMTP_PORT") with
  | None =>
      (failure ("SMTP_PORT 必须是数字: " ++ setting "SMTP_PORT") "INVALID_PORT", h)
  | Some port =>
  let all_recipients := (to_addresses ++ cc_addresses ++ bcc_addresses)%list in
  match deliver smtp_use_tls (setting "SMTP_HOST") port
                (setting "SMTP_USERNAME") (setting "SMTP_PASSWORD")
                msg all_recipients h with
  | (inr _, h') => (sent to_addresses cc_addresses bcc_addresses, h')
  | (inl e, h') => (transport_failure e, h')
  end
  end
  end
  end.


(** The entry appended to [results] for one recipient. *)
Definition bulk_entry (recipient : string) (ok : pyval)
    (result : gmap string pyval) : pyval :=
  VDict [("recipient", VStr recipient);
         ("success", ok);
         ("error", default VNone (result !! "error"));
         ("error_code", default VNone (result !! "error_code"))].

(** The loop of [send_bulk_email] with its three accumulators. Reading
    [result["success"]] raises [KeyError] when the key is missing. *)
Fixpoint bulk_loop (recipients : list string) (subject body body_type : string)
    (results : list pyval) (succeeded failed : Z) : M (list pyval * Z * Z) :=
  fun h =>
  match recipients with
  | [] => ret (results, succeeded, failed) h
  | recipient :: rest =>
      let '(result, h') := send_email recipient subject body None None body_type h in
      match result !! "success" with
      | None => (inl (Raise KeyError "'success'"), h')
      | Some ok =>
          let succeeded := if truthy ok then (succeeded + 1)%Z else succeeded in
          let failed := if truthy ok then failed else (failed + 1)%Z in
          let results := (results ++ [bulk_entry recipient ok result])%list in
          bulk_loop rest subject body body_type results succeeded failed h'
      end
  end.

Definition send_bulk_email (recipients : list string) (subject body body_type : string)
    (h : list smtp_call) : gmap string pyval * list smtp_call :=
  match recipients with
  | [] => (failure "recipients 必须是非空列表" "INVALID_RECIPIENTS", h)
  | _ :: _ =>
  if String.eqb subject "" then
    (failure "邮件主题 (subject) 必须是非空字符串" "INVALID_SUBJECT", h)
  else if String.eqb body "" then
    (failure "邮件正文 (body) 必须是非空字符串" "INVALID_BODY", h)
  else
  match bulk_loop recipients subject body body_type [] 0%Z 0%Z h with
  | (inl e, h') => (failure (str e) "UNEXPECTED_ERROR", h')
  | (inr (results, succeeded, failed), h') =>
      ({[ "success" := VBool (Z.eqb failed 0);
          "total" := VInt (Z.of_nat (length recipients));
          "succeeded" := VInt succeeded;
          "failed" := VInt failed;
          "results" := VList results ]}, h')
  end
  end.

(* --------------------------------------------------------------------- *)
(** *** [send_email_with_template] *)

(** What [{v}] puts into a formatted string. *)
Definition py_format (v : pyval) : string :=
  match v with
  | VStr s => s
  | _ => py_str v
  end.

(** Filling a parsed format string from keyword arguments; a field
    without an argument raises [KeyError]. *)
Fixpoint render (segs : list segment) (kwargs : gmap string pyval) : exn + string :=
  match segs with
  | [] => inr ""
  | Lit s :: rest =>
      match render rest kwargs with
      | inl e => inl e
      | inr out => inr (s ++ out)
      end
  | Field name :: rest =>
      match kwargs !! name with
      | None => inl (Raise KeyError ("'" ++ name ++ "'"))
      | Some v =>
          match render rest kwargs with
          | inl e => inl e
          | inr out => inr (py_format v ++ out)
          end
      end
  end.

(** [s.format] called with keyword arguments [kwargs]. *)
Definition format (s : string) (kwargs : gmap string pyval) : exn + string :=
  match parse s with
  | None => inl (Raise ValueError "invalid format string")
  | Some segs => render segs kwargs
  end.

(** [for x in v]: the items a loop over [v] visits. *)
Definition iter (v : pyval) : exn + list pyval :=
  match v with
  | VList l => inr l
  | VStr s => inr (VStr <$> chars s)
  | VDict d => inr ((fun kv => VStr kv.1) <$> d)
  | _ => inl (Raise TypeError ("'" ++ type_name v ++ "' object is not iterable"))
  end.

(** [v.items()]. *)
Definition items (v : pyval) : exn + list (string * pyval) :=
  match v with
  | VDict d => inr d
  | _ => inl (Raise AttributeError
                ("'" ++ type_name v ++ "' object has no attribute 'items'"))
  end.

(** The button fragment. *)
Definition button_html_of (template_data : list (string * pyval)) : string :=
  if truthy (get template_data "button_text") && truthy (get template_data "button_url")
  then "<a href=" ++ dq ++ py_format (get template_data "button_url") ++ dq
       ++ " class=" ++ dq ++ "button" ++ dq ++ ">"
       ++ py_format (get template_data "button_text") ++ "</a>"
  else "".

Definition feature_item (feature : pyval) : string :=
  "<div class=" ++ dq ++ "feature-item" ++ dq ++ ">" ++ py_format feature ++ "</div>".

(** The features fragment of the welcome layout. *)
Definition features_html_of (template_type : string)
    (template_data : list (string * pyval)) : exn + string :=
  if String.eqb template_type "welcome" && truthy (get template_data "features") then
    let features := get template_data "features" in
    let features_html := "<div class=" ++ dq ++ "features" ++ dq ++ ">" in
    match iter features with
    | inl e => inl e
    | inr visited =>
        let features_html :=
          fold_left (fun acc feature => acc ++ feature_item feature)
                    visited features_html in
        inr (features_html ++ "</div>")
    end
  else inr "".

Definition detail_row (kv : string * pyval) : string :=
  "<div><strong>" ++ kv.1 ++ ":</strong> " ++ py_format kv.2 ++ "</div>".

(** The details fragment of the alert layout. *)
Definition details_html_of (template_type : string)
    (template_data : list (string * pyval)) : exn + string :=
  if String.eqb template_type "alert" && truthy (get template_data "details") then
    let details := get template_data "details" in
    let details_html := "<div class=" ++ dq ++ "details" ++ dq ++ ">" in
    match items details with
    | inl e => inl e
    | inr visited =>
        let details_html :=
          fold_left (fun acc kv => acc ++ detail_row kv) visited details_html in
        inr (details_html ++ "</div>")
    end
  else inr "".

(** One card of the stats fragment; [stat.get] needs a dict. *)
Definition stat_card (stat : pyval) : exn + string :=
  match stat with
  | VDict d =>
      inr (lines
        ["";
         "                <div class=" ++ dq ++ "stat-card" ++ dq ++ ">";
         "                    <div class=" ++ dq ++ "stat-value" ++ dq ++ ">"
           ++ py_format (get_or d "value" (VStr "N/A")) ++ "</div>";
         "                    <div class=" ++ dq ++ "stat-label" ++ dq ++ ">"
           ++ py_format (get_or d "label" (VStr "")) ++ "</div>";
         "                </div>";
         "                "])
  | _ => inl (Raise AttributeError
                ("'" ++ type_name stat ++ "' object has no attribute 'get'"))
  end.

Fixpoint stats_loop (visited : list pyval) (stats_html : string) : exn + string :=
  match visited with
  | [] => inr stats_html
  | stat :: rest =>
      match stat_card stat with
      | inl e => inl e
      | inr card => stats_loop rest (stats_html ++ card)
      end
  end.

(** The stats fragment of the report layout. *)
Definition stats_html_of (template_type : string)
    (template_data : list (string * pyval)) : exn + string :=
  if String.eqb template_type "report" && truthy (get template_data "stats") then
    let stats := get template_data "stats" in
    match iter stats with
    | inl e => inl e
    | inr visited =>
        match stats_loop visited ("<div class=" ++ dq ++ "stats" ++ dq ++ ">") with
        | inl e => inl e
        | inr stats_html => inr (stats_html ++ "</div>")
        end
    end
  else inr "".

(** The substitution variables, in the order the source fills them. *)
Definition template_vars_of (template_type : string)
    (template_data : list (string * pyval)) : exn + gmap string pyval :=
  let template_vars : gmap string pyval :=
    {[ "title" := get_or template_data "title" (VStr "");
       "heading" := get_or template_data "heading" (VStr "");
       "message" := get_or template_data "message" (VStr "");
       "alert_title" := get_or template_data "alert_title" (VStr "重要提示");
       "summary_title" := get_or template_data "summary_title" (VStr "摘要");
       "extra_content" := get_or template_data "extra_content" (VStr "");
       "footer" := get_or template_data "footer" (VStr "此邮件由系统自动发送，请勿回复。") ]} in
  let template_vars :=
    <["button_html" := VStr (button_html_of template_data)]> template_vars in
  match features_html_of template_type template_data with
  | inl e => inl e
  | inr features_html =>
  let template_vars := <["features_html" := VStr features_html]> template_vars in
  match details_html_of template_type template_data with
  | inl e => inl e
  | inr details_html =>
  let template_vars := <["details_html" := VStr details_html]> template_vars in
  match stats_html_of template_type template_data with
  | inl e => inl e
  | inr stats_html =>
  inr (<["stats_html" := VStr stats_html]> template_vars)
  end
  end
  end.

(** The layout of [template_type] formatted with [template_vars]. *)
Definition html_body_of (template_type : string)
    (template_data : list (string * pyval)) : exn + string :=
  match template_vars_of template_type template_data with
  | inl e => inl e
  | inr template_vars =>
      match assoc template_type EMAIL_TEMPLATES with
      | None => inl (Raise KeyError ("'" ++ template_type ++ "'"))
      | Some layout => format layout template_vars
      end
  end.

(** The two handlers that close [send_email_with_template]. *)
Definition template_failure (e : exn) : gmap string pyval :=
  if isinstance e KeyError then
    failure ("模板数据缺少必需字段: " ++ str e) "MISSING_TEMPLATE_FIELD"
  else failure (str e) "UNEXPECTED_ERROR".

Definition send_email_with_template (to subject template_type : string)
    (template_data : pyval) (cc bcc : option string) (h : list smtp_call)
  : gmap string pyval * list smtp_call :=
  if String.eqb to "" then
    (failure "收件人地址 (to) 必须是非空字符串" "INVALID_RECIPIENT", h)
  else if String.eqb subject "" then
    (failure "邮件主题 (subject) 必须是非空字符串" "INVALID_SUBJECT", h)
  else
  match assoc template_type EMAIL_TEMPLATES with
  | None =>
      (failure ("不支持的模板类型: " ++ template_type ++ "。支持的类型："
                ++ join ", " (fst <$> EMAIL_TEMPLATES))
               "INVALID_TEMPLATE_TYPE", h)
  | Some _ =>
  match template_data with
  | VDict ((_ :: _) as template_data) =>
      match html_body_of template_type template_data with
      | inl e => (template_failure e, h)
      | inr html_body =>
          let '(result, h') := send_email to subject html_body cc bcc "html" h in
          match result !! "success" with
          | None => (template_failure (Raise KeyError "'success'"), h')
          | Some ok =>
              if truthy ok
              then (<["template_type" := VStr template_type]> result, h')
              else (result, h')
          end
      end
  | _ => (failure "template_data 必须是非空字典" "INVALID_TEMPLATE_DATA", h)
  end
  end.

(* --------------------------------------------------------------------- *)
(** *** Vocabulary for the statements *)

(** The four settings a call cannot do without, in the order checked. *)
Definition required_settings : list string :=
  ["SMTP_HOST"; "SMTP_PORT"; "SMTP_USERNAME"; "SMTP_PASSWORD"].

(** A setting the configuration check counts as missing: absent from the
    environment, or present with the empty string as its value. *)
Definition unset (k : string) : bool := negb (truthy_opt (getenv k)).

(** A setting that is absent from the environment. *)
Definition absent (k : string) : bool :=
  match getenv k with
  | None => true
  | Some _ => false
  end.

(** The call passes the configuration check, the validation of its
    arguments and the attachment block, which leaves the message [msg]. *)
Definition prepared (to subject body : string) (cc : option string)
    (body_type : string) (msg : mime_message) : Prop :=
  missing_of (getenv "SMTP_HOST") (getenv "SMTP_PORT")
             (getenv "SMTP_USERNAME") (getenv "SMTP_PASSWORD") = []
  /\ String.eqb to "" = false
  /\ String.eqb subject "" = false
  /\ String.eqb body "" = false
  /\ String.eqb body_type "plain" || String.eqb body_type "html" = true
  /\ attach_all (new_message (setting "SMTP_USERNAME") to subject cc body body_type)
     = inr (inr msg).

(** The call reaches the transport block with message [msg] and port
    number [port]. *)
Definition at_transport (to subject body : string) (cc : option string)
    (body_type : string) (msg : mime_message) (port : Z) : Prop :=
  prepared to subject body cc body_type msg
  /\ int (setting "SMTP_PORT") = Some port.

(** The calls the transport block makes when none of them raises. *)
Definition planned_calls (smtp_use_tls : bool) (smtp_host : string) (port : Z)
    (smtp_username smtp_password : string) (msg : mime_message)
    (all_recipients : list string) : list smtp_call :=
  ((if smtp_use_tls then [SMTP smtp_host port; starttls]
    else [SMTP_SSL smtp_host port])
   ++ [login smtp_username smtp_password;
       send_message msg smtp_username all_recipients;
       quit])%list.

(** Making the calls of a list one after the other: [runs calls h out h']
    holds when, starting from history [h], the calls are made up to the
    first that raises, with outcome [out] and final history [h']. *)
Inductive runs : list smtp_call -> list smtp_call -> exn + unit
                 -> list smtp_call -> Prop :=
| runs_done h : runs [] h (inr tt) h
| runs_raise c rest h e :
    smtplib w (h ++ [c]) = Some e ->
    runs (c :: rest) h (inl e) (h ++ [c])
| runs_next c rest h out h' :
    smtplib w (h ++ [c]) = None ->
    runs rest (h ++ [c]) out h' ->
    runs (c :: rest) h out h'.

(** The codes [send_email] reports a failure with. *)
Definition send_email_codes : list string :=
  ["MISSING_SMTP_CONFIG"; "INVALID_RECIPIENT"; "INVALID_SUBJECT"; "INVALID_BODY";
   "INVALID_BODY_TYPE"; "ATTACHMENT_ERROR"; "INVALID_PORT"; "SMTP_AUTH_ERROR";
   "SMTP_ERROR"; "SMTP_CONNECTION_ERROR"; "UNEXPECTED_ERROR"].

(** The shapes of dictionary [send_email] returns. *)
Inductive outcome : gmap string pyval -> Prop :=
| outcome_sent to_addresses cc_addresses bcc_addresses :
    outcome (sent to_addresses cc_addresses bcc_addresses)
| outcome_failure error error_code :
    error_code ∈ send_email_codes ->
    outcome (failure error error_code)
| outcome_missing error missing :
    outcome (<["missing_configs" := missing]> (failure error "MISSING_SMTP_CONFIG")).

(** The single-send path taken once per recipient, in input order, each
    call starting from the history the one before it left. *)
Fixpoint send_each (recipients : list string) (subject body body_type : string)
    (h : list smtp_call) : list (gmap string pyval) * list smtp_call :=
  match recipients with
  | [] => ([], h)
  | recipient :: rest =>
      let '(result, h1) := send_email recipient subject body None None body_type h in
      let '(results, h2) := send_each rest subject body body_type h1 in
      (result :: results, h2)
  end.

(** Whether a result dictionary reports success. *)
Definition succeeded_in (result : gmap string pyval) : bool :=
  match result !! "success" with
  | Some v => truthy v
  | None => false
  end.

(** The per-recipient entry of a bulk result, from the recipient and the
    dictionary the single send returned for it. *)
Definition entry_of (recipient : string) (result : gmap string pyval) : pyval :=
  bulk_entry recipient (default VNone (result !! "success")) result.

(** The variables once the three fragments are built. *)
Definition filled_vars (template_data : list (string * pyval))
    (features_html details_html stats_html : string) : gmap string pyval :=
  <["stats_html" := VStr stats_html]>
    (<["details_html" := VStr details_html]>
       (<["features_html" := VStr features_html]>
          (<["button_html" := VStr (button_html_of template_data)]>
             ({[ "title" := get_or template_data "title" (VStr "");
                 "heading" := get_or template_data "heading" (VStr "");
                 "message" := get_or template_data "message" (VStr "");
                 "alert_title" := get_or template_data "alert_title" (VStr "重要提示");
                 "summary_title" := get_or template_data "summary_title" (VStr "摘要");
                 "extra_content" := get_or template_data "extra_content" (VStr "");
                 "footer" := get_or template_data "footer"
                               (VStr "此邮件由系统自动发送，请勿回复。") ]}
              : gmap string pyval)))).

(** The regular files of the attachment directory, in listing order. *)
Definition regular_files : list path :=
  match attachments_dir w with
  | Some (inr entries) => filter is_file entries
  | _ => []
  end.

Definition readable (f : path) : bool :=
  match read f with
  | inr _ => true
  | inl _ => false
  end.

Definition payload_of (f : path) : list Byte.byte :=
  match read f with
  | inr payload => payload
  | inl _ => []
  end.

(** One attachment part per file, in order. *)
Definition parts_of (files : list path) : list mime_part :=
  (fun f => attachment_part f (payload_of f)) <$> files.


(** The message a call builds when its attachments can be read: the
    headers in the order they are set, then the body and the files. *)
Definition message_for (to subject body : string) (cc : option string)
    (body_type : string) : mime_message :=
  {| headers :=
       ([("From", setting "SMTP_USERNAME"); ("To", to); ("Subject", subject)]
        ++ match cc with
           | Some c => if String.eqb c "" then [] else [("Cc", c)]
           | None => []
           end)%list;
     parts := MIMEText body body_type "utf-8" :: parts_of regular_files |}.

(** The four settings are present and not empty. *)
Definition configured : Prop :=
  missing_of (getenv "SMTP_HOST") (getenv "SMTP_PORT")
             (getenv "SMTP_USERNAME") (getenv "SMTP_PASSWORD") = [].

(** The first call of the transport block. *)
Definition first_call (port : Z) : smtp_call :=
  if use_tls then SMTP (setting "SMTP_HOST") port
  else SMTP_SSL (setting "SMTP_HOST") port.


(** The text of one stat card. *)
Definition stat_card_text (d : list (string * pyval)) : string :=
  lines
    ["";
     "                <div class=" ++ dq ++ "stat-card" ++ dq ++ ">";
     "                    <div class=" ++ dq ++ "stat-value" ++ dq ++ ">"
       ++ py_format (get_or d "value" (VStr "N/A")) ++ "</div>";
     "                    <div class=" ++ dq ++ "stat-label" ++ dq ++ ">"
       ++ py_format (get_or d "label" (VStr "")) ++ "</div>";
     "                </div>";
     "                "].

(** The items of a dict value, [[]] for any other value. *)
Definition dict_items (v : pyval) : list (string * pyval) :=
  match v with
  | VDict d => d
  | _ => []
  end.

Definition is_dict (v : pyval) : bool :=
  match v with
  | VDict _ => true
  | _ => false
  end.

(** The entry a bulk send records when the single send found the
    configuration incomplete. *)
Definition missing_config_entry (recipient : string) : pyval :=
  VDict [("recipient", VStr recipient);
         ("success", VBool false);
         ("error", VStr ("缺少必需的 SMTP 配置: "
                         ++ join ", " (List.filter unset required_settings)));
         ("error_code", VStr "MISSING_SMTP_CONFIG")].



(* ===================================================================== *)
(** ** Facts about the runtime model *)
(* ===================================================================== *)

Lemma failure_success error error_code :
  failure error error_code !! "success" = Some (VBool false).
Proof. reflexivity. Qed.

Lemma failure_code error error_code :
  failure error error_code !! "error_code" = Some (VStr error_code).
Proof. reflexivity. Qed.

Lemma failure_error error error_code :
  failure error error_code !! "error" = Some (VStr error).
Proof. reflexivity. Qed.

Lemma sent_success ta ca ba : sent ta ca ba !! "success" = Some (VBool true).
Proof. reflexivity. Qed.

Lemma sent_code ta ca ba : sent ta ca ba !! "error_code" = None.
Proof. reflexivity. Qed.

Lemma missing_of_filter :
  missing_of (getenv "SMTP_HOST") (getenv "SMTP_PORT")
             (getenv "SMTP_USERNAME") (getenv "SMTP_PASSWORD")
  = List.filter unset required_settings.
Proof.
  unfold missing_of, required_settings, unset. simpl.
  destruct (truthy_opt (getenv "SMTP_HOST")),
           (truthy_opt (getenv "SMTP_PORT")),
           (truthy_opt (getenv "SMTP_USERNAME")),
           (truthy_opt (getenv "SMTP_PASSWORD")); reflexivity.
Qed.

(** Membership in a list written out in full. *)
Ltac in_codes :=
  unfold send_email_codes;
  solve [repeat first [apply list_elem_of_here | apply list_elem_of_further]].

(** A return of [failure _ _] that leaves the history as it was. *)
Ltac early_failure :=
  split; [reflexivity
         |split; [apply outcome_failure; in_codes | apply failure_success]].

Lemma attach_files_failure files msg d :
  attach_files files msg = inl d ->
  exists error, d = failure error "ATTACHMENT_ERROR".
Proof.
  revert msg. induction files as [|f files IH]; intros msg H; simpl in H.
  - discriminate.
  - destruct (read f) as [e|payload].
    + injection H as <-. eauto.
    + eapply IH, H.
Qed.

Lemma transport_failure_outcome e : outcome (transport_failure e).
Proof.
  unfold transport_failure.
  destruct (isinstance e SMTPAuthenticationError);
    [|destruct (isinstance e SMTPException)];
    apply outcome_failure; in_codes.
Qed.

(** What [send_email] does once the call is prepared: it parses the port
    and runs the transport block. *)
Lemma send_email_prepared to subject body cc bcc body_type msg h :
  prepared to subject body cc body_type msg ->
  send_email to subject body cc bcc body_type h =
  match int (setting "SMTP_PORT") with
  | None =>
      (failure ("SMTP_PORT 必须是数字: " ++ setting "SMTP_PORT") "INVALID_PORT", h)
  | Some port =>
      match deliver use_tls (setting "SMTP_HOST") port
                    (setting "SMTP_USERNAME") (setting "SMTP_PASSWORD") msg
                    (parse_addresses to ++ optional_addresses cc
                     ++ optional_addresses bcc)%list h with
      | (inr _, h') =>
          (sent (parse_addresses to) (optional_addresses cc)
                (optional_addresses bcc), h')
      | (inl e, h') => (transport_failure e, h')
      end
  end.
Proof.
  intros (Hm & Ht & Hs & Hb & Hbt & Ha).
  unfold send_email. cbv zeta.
  rewrite Hm, Ht, Hs, Hb, Hbt. cbn [negb]. rewrite Ha. reflexivity.
Qed.

(** Every path through [send_email] either returns before the transport
    block, with a failure and the history untouched, or is prepared and
    has parsed its port. *)
Lemma send_email_early to subject body cc bcc body_type h :
  (exists msg port, at_transport to subject body cc body_type msg port)
  \/ (snd (send_email to subject body cc bcc body_type h) = h
      /\ outcome (fst (send_email to subject body cc bcc body_type h))
      /\ fst (send_email to subject body cc bcc body_type h) !! "success"
         = Some (VBool false)).
Proof.
  destruct (missing_of (getenv "SMTP_HOST") (getenv "SMTP_PORT")
              (getenv "SMTP_USERNAME") (getenv "SMTP_PASSWORD")) eqn:Hm;
    [|right; unfold send_email; cbv zeta; rewrite Hm;
      split; [reflexivity|split; [apply outcome_missing|reflexivity]]].
  destruct (String.eqb to "") eqn:Ht;
    [right; unfold send_email; cbv zeta; rewrite Hm, Ht;
     early_failure|].
  destruct (String.eqb subject "") eqn:Hs;
    [right; unfold send_email; cbv zeta; rewrite Hm, Ht, Hs;
     early_failure|].
  destruct (String.eqb body "") eqn:Hb;
    [right; unfold send_email; cbv zeta; rewrite Hm, Ht, Hs, Hb;
     early_failure|].
  destruct (String.eqb body_type "plain" || String.eqb body_type "html") eqn:Hbt;
    [|right; unfold send_email; cbv zeta; rewrite Hm, Ht, Hs, Hb, Hbt;
      early_failure].
  destruct (attach_all (new_message (setting "SMTP_USERNAME") to subject cc
                          body body_type)) as [e|[d|msg]] eqn:Ha.
  - right. unfold send_email. cbv zeta. rewrite Hm, Ht, Hs, Hb, Hbt, Ha.
    early_failure.
  - right. unfold send_email. cbv zeta. rewrite Hm, Ht, Hs, Hb, Hbt, Ha.
    cbn [negb fst snd]. unfold attach_all in Ha.
    destruct (attachments_dir w) as [[?|entries]|]; try discriminate.
    injection Ha as Ha. apply attach_files_failure in Ha as [error ->].
    early_failure.
  - assert (Hp : prepared to subject body cc body_type msg)
      by (unfold prepared; auto 10).
    destruct (int (setting "SMTP_PORT")) as [port|] eqn:Hport.
    + left. exists msg, port. split; assumption.
    + right. rewrite (send_email_prepared _ _ _ _ bcc _ _ h Hp), Hport.
      early_failure.
Qed.

Lemma transport_failure_success e :
  transport_failure e !! "success" = Some (VBool false).
Proof.
  unfold transport_failure.
  destruct (isinstance e SMTPAuthenticationError);
    [|destruct (isinstance e SMTPException)]; apply failure_success.
Qed.

(** Every dictionary [send_email] returns has one of three shapes. *)
Lemma send_email_outcome to subject body cc bcc body_type h :
  outcome (fst (send_email to subject body cc bcc body_type h)).
Proof.
  destruct (send_email_early to subject body cc bcc body_type h)
    as [(msg & port & Hp & Hport)|(_ & Ho & _)]; [|exact Ho].
  rewrite (send_email_prepared _ _ _ _ bcc _ _ h Hp), Hport.
  destruct (deliver _ _ _ _ _ _ _ h) as [[e|[]] h'].
  - apply transport_failure_outcome.
  - apply outcome_sent.
Qed.

Lemma outcome_success r :
  outcome r -> exists b, r !! "success" = Some (VBool b).
Proof. intros [ | | ]; eexists; reflexivity. Qed.

Lemma outcome_code r c :
  outcome r -> r !! "error_code" = Some (VStr c) -> c ∈ send_email_codes.
Proof.
  intros [ta ca ba|error code Hin|error missing] H.
  - rewrite sent_code in H. discriminate.
  - rewrite failure_code in H. injection H as <-. exact Hin.
  - change (Some (VStr "MISSING_SMTP_CONFIG") = Some (VStr c)) in H.
    injection H as <-. in_codes.
Qed.

(** A successful [send_email] returns the [sent] dictionary, and the
    history then ends with the planned calls, all made. *)
Lemma send_email_sent to subject body cc bcc body_type h :
  fst (send_email to subject body cc bcc body_type h) !! "success"
    = Some (VBool true) ->
  fst (send_email to subject body cc bcc body_type h)
    = sent (parse_addresses to) (optional_addresses cc) (optional_addresses bcc)
  /\ exists msg port,
       at_transport to subject body cc body_type msg port
       /\ deliver use_tls (setting "SMTP_HOST") port (setting "SMTP_USERNAME")
            (setting "SMTP_PASSWORD") msg
            (parse_addresses to ++ optional_addresses cc
             ++ optional_addresses bcc)%list h
          = (inr tt, snd (send_email to subject body cc bcc body_type h)).
Proof.
  intros Hs.
  destruct (send_email_early to subject body cc bcc body_type h)
    as [(msg & port & Hp & Hport)|(_ & _ & Hf)]; [|congruence].
  revert Hs. rewrite (send_email_prepared _ _ _ _ bcc _ _ h Hp), Hport.
  destruct (deliver _ _ _ _ _ _ _ h) as [[e|[]] h'] eqn:Hd; cbn [fst snd].
  - rewrite transport_failure_success. discriminate.
  - intros _. split; [reflexivity|]. exists msg, port.
    split; [split; assumption|exact Hd].
Qed.

(** The transport block makes its planned calls in order, up to the first
    that raises. *)
Lemma deliver_runs smtp_use_tls smtp_host port smtp_username smtp_password
    msg all_recipients h :
  runs (planned_calls smtp_use_tls smtp_host port smtp_username smtp_password
          msg all_recipients) h
       (fst (deliver smtp_use_tls smtp_host port smtp_username smtp_password
               msg all_recipients h))
       (snd (deliver smtp_use_tls smtp_host port smtp_username smtp_password
               msg all_recipients h)).
Proof.
  unfold planned_calls, deliver, connect, bind, call.
  destruct smtp_use_tls; cbn [app];
    repeat match goal with
           | |- context [smtplib w ?x] =>
               let E := fresh "E" in destruct (smtplib w x) eqn:E; cbn [fst snd]
           end;
    repeat first [ apply runs_done
                 | apply runs_raise; assumption
                 | apply runs_next; [assumption|] ].
Qed.

(** The final history of a run extends the initial one by the calls made,
    which are an initial part of the calls planned. *)
Lemma runs_history calls h out h' :
  runs calls h out h' ->
  exists made, h' = (h ++ made)%list /\ made `prefix_of` calls
               /\ (calls <> [] -> made <> [])
               /\ (out = inr tt -> made = calls).
Proof.
  induction 1 as [h|c rest h e He|c rest h out h' Hc Hr (made & -> & Hpre & Hne & Hall)].
  - exists []. rewrite app_nil_r. split_and!; [done|done|done|done].
  - exists [c]. split_and!; [done|by apply prefix_cons, prefix_nil|done|discriminate].
  - exists (c :: made). rewrite <- app_assoc. split_and!.
    + done.
    + by apply prefix_cons.
    + done.
    + intros Ho. by rewrite (Hall Ho).
Qed.

(** The dictionary returned when the configuration check finds a setting
    absent or empty. *)
Lemma send_email_missing to subject body cc bcc body_type h k :
  k ∈ required_settings -> unset k = true ->
  exists error missing,
    List.filter unset required_settings = missing /\ missing <> []
    /\ send_email to subject body cc bcc body_type h
       = (<["missing_configs" := VList (VStr <$> missing)]>
            (failure error "MISSING_SMTP_CONFIG"), h).
Proof.
  intros Hk Hu.
  assert (Hin : In k (List.filter unset required_settings)).
  { apply filter_In. split; [by apply list_elem_of_In|exact Hu]. }
  unfold send_email. cbv zeta. rewrite missing_of_filter.
  destruct (List.filter unset required_settings) as [|m ms]; [destruct Hin|].
  eexists _, (m :: ms). split_and!; [reflexivity|discriminate|reflexivity].
Qed.

Lemma absent_unset k : getenv k = None -> unset k = true.
Proof. unfold unset. intros ->. reflexivity. Qed.

(* ===================================================================== *)
(** ** The single send *)
(* ===================================================================== *)

(** C5, amended. When any of the four required settings is absent from
    the environment or empty, [send_email] fails with
    [MISSING_SMTP_CONFIG], [missing_configs] lists exactly the settings
    that are absent or empty, in the order they are checked, and no call
    reaches the transport; with all four absent the list has all four. *)
Theorem missing_config_lists_unset to subject body cc bcc body_type h :
  (exists k, k ∈ required_settings /\ unset k = true) ->
  let r := fst (send_email to subject body cc bcc body_type h) in
  r !! "success" = Some (VBool false)
  /\ r !! "error_code" = Some (VStr "MISSING_SMTP_CONFIG")
  /\ r !! "missing_configs"
     = Some (VList (VStr <$> List.filter unset required_settings))
  /\ snd (send_email to subject body cc bcc body_type h) = h
  /\ ((forall k, k ∈ required_settings -> getenv k = None) ->
      List.filter unset required_settings = required_settings).
Proof.
  intros (k & Hk & Hu) r. subst r.
  destruct (send_email_missing to subject body cc bcc body_type h k Hk Hu)
    as (error & missing & <- & _ & ->).
  cbn [fst snd]. split_and!; try reflexivity.
  intros Hall. unfold required_settings in *. cbn [List.filter].
  rewrite !absent_unset; [reflexivity|apply Hall..];
    solve [repeat first [apply list_elem_of_here | apply list_elem_of_further]].
Qed.

(** C10. The configuration check comes first: when a required setting is
    absent and an argument is invalid as well, the code reported is
    [MISSING_SMTP_CONFIG] and not the code of the invalid argument. *)
Theorem config_check_precedes_validation to subject body cc bcc body_type h :
  (exists k, k ∈ required_settings /\ getenv k = None) ->
  (to = "" \/ subject = "" \/ body = ""
   \/ (body_type <> "plain" /\ body_type <> "html")) ->
  let r := fst (send_email to subject body cc bcc body_type h) in
  r !! "error_code" = Some (VStr "MISSING_SMTP_CONFIG")
  /\ r !! "error_code" <> Some (VStr "INVALID_RECIPIENT")
  /\ r !! "error_code" <> Some (VStr "INVALID_SUBJECT")
  /\ r !! "error_code" <> Some (VStr "INVALID_BODY")
  /\ r !! "error_code" <> Some (VStr "INVALID_BODY_TYPE").
Proof.
  intros (k & Hk & Ha) _ r. subst r.
  destruct (send_email_missing to subject body cc bcc body_type h k Hk
              (absent_unset k Ha)) as (error & missing & _ & _ & ->).
  cbn [fst].
  assert (E : (<["missing_configs" := VList (VStr <$> missing)]>
                 (failure error "MISSING_SMTP_CONFIG")) !! "error_code"
              = Some (VStr "MISSING_SMTP_CONFIG")) by reflexivity.
  rewrite E. split_and!; [reflexivity|discriminate..].
Qed.


Lemma deliver_login_raises smtp_use_tls smtp_host port smtp_username
    smtp_password msg all_recipients h h1 e :
  connect smtp_use_tls smtp_host port h = (inr tt, h1) ->
  smtplib w (h1 ++ [login smtp_username smtp_password]) = Some e ->
  deliver smtp_use_tls smtp_host port smtp_username smtp_password msg
          all_recipients h
  = (inl e, (h1 ++ [login smtp_username smtp_password])%list).
Proof.
  intros Hc Hl. unfold deliver, bind. rewrite Hc.
  unfold call. cbv zeta. rewrite Hl. reflexivity.
Qed.

Lemma isinstance_auth_smtp e :
  isinstance e SMTPAuthenticationError = true -> isinstance e SMTPException = true.
Proof. unfold isinstance. destruct (class_of e); simpl; congruence. Qed.

(** C1, amended. When the call reaches the transport block, the channel
    is opened and [login] raises [e], the call fails and nothing further
    is attempted; the code follows the class of [e]:
    [SMTP_AUTH_ERROR] for [SMTPAuthenticationError], [SMTP_ERROR] for
    any other [SMTPException], and [SMTP_CONNECTION_ERROR] only for an
    exception outside the SMTP classes. *)
Theorem auth_failure_code to subject body cc bcc body_type h msg port h1 e :
  at_transport to subject body cc body_type msg port ->
  connect use_tls (setting "SMTP_HOST") port h = (inr tt, h1) ->
  smtplib w (h1 ++ [login (setting "SMTP_USERNAME") (setting "SMTP_PASSWORD")])
    = Some e ->
  let out := send_email to subject body cc bcc body_type h in
  fst out !! "success" = Some (VBool false)
  /\ snd out
     = (h1 ++ [login (setting "SMTP_USERNAME") (setting "SMTP_PASSWORD")])%list
  /\ (isinstance e SMTPAuthenticationError = true ->
      fst out !! "error_code" = Some (VStr "SMTP_AUTH_ERROR"))
  /\ (isinstance e SMTPAuthenticationError = false ->
      isinstance e SMTPException = true ->
      fst out !! "error_code" = Some (VStr "SMTP_ERROR"))
  /\ (isinstance e SMTPException = false ->
      fst out !! "error_code" = Some (VStr "SMTP_CONNECTION_ERROR")).
Proof.
  intros [Hprep Hport] Hc Hl out. subst out.
  rewrite (send_email_prepared _ _ _ _ bcc _ _ h Hprep), Hport.
  rewrite (deliver_login_raises _ _ _ _ _ _ _ _ _ _ Hc Hl). cbn [fst snd].
  split_and!.
  - apply transport_failure_success.
  - reflexivity.
  - intros Ha. unfold transport_failure. rewrite Ha. reflexivity.
  - intros Ha Hs. unfold transport_failure. rewrite Ha, Hs. reflexivity.
  - intros Hs. unfold transport_failure.
    destruct (isinstance e SMTPAuthenticationError) eqn:Ha.
    + apply isinstance_auth_smtp in Ha. congruence.
    + rewrite Hs. reflexivity.
Qed.

(** The history a prepared call leaves is the one its transport block
    leaves. *)
Lemma send_email_history to subject body cc bcc body_type h msg port :
  at_transport to subject body cc body_type msg port ->
  snd (send_email to subject body cc bcc body_type h)
  = snd (deliver use_tls (setting "SMTP_HOST") port (setting "SMTP_USERNAME")
           (setting "SMTP_PASSWORD") msg
           (parse_addresses to ++ optional_addresses cc
            ++ optional_addresses bcc)%list h).
Proof.
  intros [Hprep Hport].
  rewrite (send_email_prepared _ _ _ _ bcc _ _ h Hprep), Hport.
  destruct (deliver _ _ _ _ _ _ _ h) as [[e|[]] h']; reflexivity.
Qed.

Lemma use_tls_default : getenv "SMTP_USE_TLS" = None -> use_tls = true.
Proof. unfold use_tls. intros ->. reflexivity. Qed.

(** Taking a run over an explicit list of calls apart, call by call. *)
Ltac invert_runs :=
  repeat match goal with
         | H : runs (_ :: _) _ _ _ |- _ => inversion H; subst; clear H
         | H : runs [] _ _ _ |- _ => inversion H; subst; clear H
         end.

(** A constructor is not among calls built from other constructors. *)
Ltac not_among :=
  let Hin := fresh "Hin" in
  intros Hin;
  repeat (apply elem_of_cons in Hin as [Hin|Hin]; [discriminate Hin|]);
  exact (not_elem_of_nil _ Hin).

(** C7. A call that reaches the transport block opens the channel by the
    mode configured. Without secure upgrade it opens an implicitly secured
    channel and never calls [starttls]. With secure upgrade, the default,
    it opens a plain connection, calls [starttls] next whenever the
    connection was made, and calls [login] only after a [starttls] that
    succeeded. *)
Theorem secure_channel_by_mode to subject body cc bcc body_type h msg port :
  at_transport to subject body cc body_type msg port ->
  exists calls,
    snd (send_email to subject body cc bcc body_type h) = (h ++ calls)%list
    /\ (getenv "SMTP_USE_TLS" = None -> use_tls = true)
    /\ (use_tls = false ->
        head calls = Some (SMTP_SSL (setting "SMTP_HOST") port)
        /\ (starttls ∉ calls)
        /\ forall host' port', SMTP host' port' ∉ calls)
    /\ (use_tls = true ->
        head calls = Some (SMTP (setting "SMTP_HOST") port)
        /\ (smtplib w (h ++ [SMTP (setting "SMTP_HOST") port]) = None ->
            calls !! 1%nat = Some starttls)
        /\ (forall i u p, calls !! i = Some (login u p) ->
            i = 2%nat
            /\ calls !! 1%nat = Some starttls
            /\ smtplib w (h ++ [SMTP (setting "SMTP_HOST") port; starttls]) = None)
        /\ forall host' port', SMTP_SSL host' port' ∉ calls).
Proof.
  intros Hat. rewrite (send_email_history _ _ _ _ bcc _ h _ _ Hat).
  pose proof (deliver_runs use_tls (setting "SMTP_HOST") port
                (setting "SMTP_USERNAME") (setting "SMTP_PASSWORD") msg
                (parse_addresses to ++ optional_addresses cc
                 ++ optional_addresses bcc)%list h) as Hr.
  revert Hr.
  generalize (fst (deliver use_tls (setting "SMTP_HOST") port
                (setting "SMTP_USERNAME") (setting "SMTP_PASSWORD") msg
                (parse_addresses to ++ optional_addresses cc
                 ++ optional_addresses bcc)%list h)).
  generalize (snd (deliver use_tls (setting "SMTP_HOST") port
                (setting "SMTP_USERNAME") (setting "SMTP_PASSWORD") msg
                (parse_addresses to ++ optional_addresses cc
                 ++ optional_addresses bcc)%list h)).
  intros h' out Hr. unfold planned_calls in Hr.
  destruct use_tls eqn:Htls; cbn [app] in Hr; invert_runs;
    rewrite <- ?app_assoc in *; cbn [app] in *.
  all: eexists; split; [reflexivity|].
  all: split;
    [intros Hd; first [reflexivity | apply use_tls_default in Hd; congruence]|].
  all: split; intros Hmode; try discriminate Hmode.
  all: split_and!; try reflexivity; try not_among; try (intros; not_among).
  all: try (intros; congruence).
  all: intros i u p Hi;
    destruct i as [|[|[|[|[|i]]]]]; cbn in Hi; try discriminate Hi;
    split_and!; first [reflexivity | assumption].
Qed.

(* --------------------------------------------------------------------- *)
(** *** Splitting and joining *)

Lemma split_cons sep c s :
  split sep (String c s) =
  if Ascii.eqb c sep then "" :: split sep s
  else match split sep s with
       | seg :: segs => String c seg :: segs
       | [] => [String c ""]
       end.
Proof. reflexivity. Qed.

Lemma split_not_nil sep s : split sep s <> [].
Proof.
  destruct s as [|c s]; [discriminate|].
  rewrite split_cons. destruct (Ascii.eqb c sep); [discriminate|].
  destruct (split sep s); discriminate.
Qed.

(** No segment is dropped: there is one more segment than separators. *)
Lemma length_split sep s : length (split sep s) = S (count_char sep s).
Proof.
  induction s as [|c s IH]; [reflexivity|].
  rewrite split_cons. cbn [count_char].
  destruct (Ascii.eqb c sep); cbn [length Nat.add].
  - by rewrite IH.
  - pose proof (split_not_nil sep s).
    destruct (split sep s) as [|seg segs]; [done|]. exact IH.
Qed.

(** Joining the segments with the separator gives the text back. *)
Lemma join_split sep s : join (String sep "") (split sep s) = s.
Proof.
  unfold join. induction s as [|c s IH]; [reflexivity|].
  rewrite split_cons. destruct (Ascii.eqb c sep) eqn:E.
  - apply Ascii.eqb_eq in E as ->.
    pose proof (split_not_nil sep s).
    destruct (split sep s) as [|seg segs]; [done|].
    change (String.concat (String sep "") ("" :: seg :: segs))
      with (String sep (String.concat (String sep "") (seg :: segs))).
    by rewrite IH.
  - pose proof (split_not_nil sep s).
    destruct (split sep s) as [|seg segs]; [done|].
    destruct segs as [|seg' segs].
    + cbn in IH |- *. by rewrite IH.
    + change (String.concat (String sep "") (String c seg :: seg' :: segs))
        with (String c (seg ++ String sep ""
                        ++ String.concat (String sep "") (seg' :: segs))).
      f_equal. exact IH.
Qed.

(** A separator at the end leaves an empty last segment. *)
Lemma split_trailing sep s :
  split sep (s ++ String sep "") = (split sep s ++ [""])%list.
Proof.
  induction s as [|c s IH].
  - change ("" ++ String sep "") with (String sep "").
    rewrite split_cons, Ascii.eqb_refl. reflexivity.
  - change (String c s ++ String sep "") with (String c (s ++ String sep "")).
    rewrite !split_cons, IH. destruct (Ascii.eqb c sep); [reflexivity|].
    pose proof (split_not_nil sep s).
    destruct (split sep s) as [|seg segs]; [done|reflexivity].
Qed.

Lemma append_nil_r s : s ++ "" = s.
Proof.
  induction s as [|c s IH]; [reflexivity|].
  change (String c s ++ "") with (String c (s ++ "")). by rewrite IH.
Qed.

Lemma append_assoc a b c : (a ++ b) ++ c = a ++ (b ++ c).
Proof.
  induction a as [|x a IH]; [reflexivity|].
  change (String x (a ++ b) ++ c = String x (a ++ (b ++ c))).
  change (String x ((a ++ b) ++ c) = String x (a ++ (b ++ c))). by rewrite IH.
Qed.

(* --------------------------------------------------------------------- *)
(** *** Trimming *)

Lemma append_cons c a b : String c a ++ b = String c (a ++ b).
Proof. reflexivity. Qed.

Lemma rev_app_append s1 s2 : String.rev_app s1 s2 = String.rev s1 ++ s2.
Proof.
  unfold String.rev. revert s2.
  induction s1 as [|c s1 IH]; intros s2; [reflexivity|].
  cbn [String.rev_app]. rewrite (IH (String c s2)), (IH (String c "")).
  rewrite append_assoc. reflexivity.
Qed.

Lemma rev_cons c s : String.rev (String c s) = String.rev s ++ String c "".
Proof. unfold String.rev at 1. cbn [String.rev_app]. apply rev_app_append. Qed.

Lemma rev_append a b : String.rev (a ++ b) = String.rev b ++ String.rev a.
Proof.
  induction a as [|c a IH].
  - change (String.rev "") with "". by rewrite append_nil_r.
  - rewrite append_cons, !rev_cons, IH, append_assoc. reflexivity.
Qed.

Lemma rev_rev s : String.rev (String.rev s) = s.
Proof.
  induction s as [|c s IH]; [reflexivity|].
  rewrite rev_cons, rev_append, IH. reflexivity.
Qed.

Lemma lstrip_cons c1 r1 :
  lstrip (String c1 r1) =
  if is_space1 c1 then lstrip r1
  else match r1 with
       | "" => String c1 r1
       | String c2 r2 =>
           if is_space2 c1 c2 then lstrip r2
           else match r2 with
                | "" => String c1 r1
                | String c3 r3 =>
                    if is_space3 c1 c2 c3 then lstrip r3 else String c1 r1
                end
       end.
Proof. reflexivity. Qed.

Lemma lstrip_rev_cons c1 r1 :
  lstrip_rev (String c1 r1) =
  if is_space1 c1 then lstrip_rev r1
  else match r1 with
       | "" => String c1 r1
       | String c2 r2 =>
           if is_space2 c2 c1 then lstrip_rev r2
           else match r2 with
                | "" => String c1 r1
                | String c3 r3 =>
                    if is_space3 c3 c2 c1 then lstrip_rev r3 else String c1 r1
                end
       end.
Proof. reflexivity. Qed.

(** What [lstrip] removes is a prefix, and what it leaves does not begin
    with whitespace. *)
Lemma lstrip_spec s :
  (exists p, s = p ++ lstrip s) /\ starts_space (lstrip s) = false.
Proof.
  assert (H : forall n s, (String.length s <= n)%nat ->
            (exists p, s = p ++ lstrip s) /\ starts_space (lstrip s) = false).
  { clear s. induction n as [|n IH]; intros s Hn.
    { destruct s; [|cbn in Hn; lia]. split; [by exists ""|reflexivity]. }
    destruct s as [|c1 r1]; [split; [by exists ""|reflexivity]|].
    cbn [String.length] in Hn. rewrite lstrip_cons.
    destruct (is_space1 c1) eqn:E1.
    { destruct (IH r1 ltac:(lia)) as [[p Hp] Hs]. split; [|exact Hs].
      exists (String c1 p). by rewrite append_cons, <- Hp. }
    destruct r1 as [|c2 r2].
    { split; [by exists ""|]. cbn [starts_space]. by rewrite E1. }
    cbn [String.length] in Hn.
    destruct (is_space2 c1 c2) eqn:E2.
    { destruct (IH r2 ltac:(lia)) as [[p Hp] Hs]. split; [|exact Hs].
      exists (String c1 (String c2 p)). by rewrite !append_cons, <- Hp. }
    destruct r2 as [|c3 r3].
    { split; [by exists ""|]. cbn [starts_space]. by rewrite E1, E2. }
    cbn [String.length] in Hn.
    destruct (is_space3 c1 c2 c3) eqn:E3.
    { destruct (IH r3 ltac:(lia)) as [[p Hp] Hs]. split; [|exact Hs].
      exists (String c1 (String c2 (String c3 p))).
      by rewrite !append_cons, <- Hp. }
    split; [by exists ""|]. cbn [starts_space]. by rewrite E1, E2, E3. }
  exact (H (String.length s) s (le_n _)).
Qed.

Lemma lstrip_rev_spec s : starts_space_rev (lstrip_rev s) = false.
Proof.
  assert (H : forall n s, (String.length s <= n)%nat ->
            starts_space_rev (lstrip_rev s) = false).
  { clear s. induction n as [|n IH]; intros s Hn.
    { destruct s; [reflexivity|cbn in Hn; lia]. }
    destruct s as [|c1 r1]; [reflexivity|].
    cbn [String.length] in Hn. rewrite lstrip_rev_cons.
    destruct (is_space1 c1) eqn:E1; [apply IH; lia|].
    destruct r1 as [|c2 r2]; [cbn [starts_space_rev]; by rewrite E1|].
    cbn [String.length] in Hn.
    destruct (is_space2 c2 c1) eqn:E2; [apply IH; lia|].
    destruct r2 as [|c3 r3]; [cbn [starts_space_rev]; by rewrite E1, E2|].
    cbn [String.length] in Hn.
    destruct (is_space3 c3 c2 c1) eqn:E3; [apply IH; lia|].
    cbn [starts_space_rev]. by rewrite E1, E2, E3. }
  exact (H (String.length s) s (le_n _)).
Qed.

Lemma lstrip_fixed s : starts_space s = false -> lstrip s = s.
Proof.
  destruct s as [|c1 [|c2 [|c3 r3]]]; cbn [starts_space];
    rewrite ?lstrip_cons;
    try destruct (is_space1 c1); try destruct (is_space2 c1 c2);
    try destruct (is_space3 c1 c2 c3); cbn [orb];
    intros H; try discriminate H; reflexivity.
Qed.

Lemma lstrip_rev_fixed s : starts_space_rev s = false -> lstrip_rev s = s.
Proof.
  destruct s as [|c1 [|c2 [|c3 r3]]]; cbn [starts_space_rev];
    rewrite ?lstrip_rev_cons;
    try destruct (is_space1 c1); try destruct (is_space2 c2 c1);
    try destruct (is_space3 c3 c2 c1); cbn [orb];
    intros H; try discriminate H; reflexivity.
Qed.

(** A text that does not begin with whitespace has no prefix that does. *)
Lemma starts_space_rev_prefix v x :
  starts_space_rev (v ++ x) = false -> starts_space_rev v = false.
Proof.
  destruct v as [|c1 [|c2 [|c3 r3]]]; [reflexivity|..];
    rewrite ?append_cons; cbn [starts_space_rev];
    try destruct (is_space1 c1); try destruct (is_space2 c2 c1);
    try destruct (is_space3 c3 c2 c1); cbn [orb];
    intros H; try discriminate H; try reflexivity;
    destruct x as [|x1 [|x2 x]]; cbn [String.append orb] in H;
    try discriminate H; try reflexivity;
    repeat (apply orb_false_elim in H as [? H]); congruence.
Qed.

(** [strip] leaves no whitespace at either end. *)
Lemma strip_trimmed s :
  starts_space (strip s) = false /\ ends_space (strip s) = false.
Proof.
  unfold strip. split; [apply lstrip_spec|].
  unfold ends_space, rstrip.
  set (u := lstrip_rev (String.rev s)).
  destruct (lstrip_spec (String.rev u)) as [[p Hp] _].
  apply (starts_space_rev_prefix _ (String.rev p)).
  rewrite <- rev_append, <- Hp, rev_rev. apply lstrip_rev_spec.
Qed.

Lemma strip_idempotent s : strip (strip s) = strip s.
Proof.
  destruct (strip_trimmed s) as [Hl Hr].
  unfold strip at 1, rstrip. unfold ends_space in Hr.
  rewrite (lstrip_rev_fixed _ Hr), rev_rev. by apply lstrip_fixed.
Qed.

Lemma strip_empty : strip "" = "".
Proof. reflexivity. Qed.

Lemma parse_addresses_trailing s :
  parse_addresses (s ++ ",") = (parse_addresses s ++ [""])%list.
Proof.
  unfold parse_addresses. rewrite split_trailing, fmap_app. reflexivity.
Qed.

(** C4. A call that succeeds returns [success] true with the parsed
    to-list as [recipients], the parsed cc-list as [cc], or [None] when
    no cc was given, and the length of the bcc-list as [bcc_count], 0
    when no bcc was given; the message was handed to the transport for
    the to-, cc- and bcc-addresses together. *)
Theorem success_result to subject body cc bcc body_type h :
  fst (send_email to subject body cc bcc body_type h) !! "success"
    = Some (VBool true) ->
  let out := send_email to subject body cc bcc body_type h in
  fst out !! "recipients" = Some (VList (VStr <$> parse_addresses to))
  /\ (cc = None -> fst out !! "cc" = Some VNone)
  /\ (forall c, cc = Some c -> c <> "" ->
      fst out !! "cc" = Some (VList (VStr <$> parse_addresses c)))
  /\ fst out !! "bcc_count"
     = Some (VInt (Z.of_nat (length (optional_addresses bcc))))
  /\ (bcc = None -> fst out !! "bcc_count" = Some (VInt 0))
  /\ exists calls msg,
       snd out = (h ++ calls)%list
       /\ send_message msg (setting "SMTP_USERNAME")
            (parse_addresses to ++ optional_addresses cc
             ++ optional_addresses bcc)%list ∈ calls.
Proof.
  intros Hs out. subst out.
  destruct (send_email_sent _ _ _ _ _ _ _ Hs) as (-> & msg & port & Hat & Hd).
  split_and!.
  - reflexivity.
  - intros ->. reflexivity.
  - intros c -> Hc. unfold optional_addresses.
    apply String.eqb_neq in Hc. rewrite Hc.
    pose proof (split_not_nil "," c) as Hne. unfold parse_addresses.
    destruct (split "," c) as [|seg segs]; [done|reflexivity].
  - destruct (optional_addresses bcc); reflexivity.
  - intros ->. reflexivity.
  - pose proof (deliver_runs use_tls (setting "SMTP_HOST") port
                  (setting "SMTP_USERNAME") (setting "SMTP_PASSWORD") msg
                  (parse_addresses to ++ optional_addresses cc
                   ++ optional_addresses bcc)%list h) as Hr.
    rewrite Hd in Hr. cbn [fst snd] in Hr.
    apply runs_history in Hr as (made & Hh & _ & _ & Hall).
    specialize (Hall eq_refl). subst made.
    eexists _, msg. split; [exact Hh|].
    unfold planned_calls. apply elem_of_app. right.
    apply list_elem_of_further, list_elem_of_here.
Qed.

(** C8. The to-list is the text split at every [","] with each segment
    trimmed of the whitespace at its two ends; nothing is filtered out, so
    there is one address per segment and a trailing comma yields an empty
    last address. The cc- and bcc-lists are built the same way when given.
    Every message handed to the transport goes to the to-list, the cc-list
    and the bcc-list concatenated in that order, duplicates included. *)
Theorem recipients_split_and_concatenated to subject body cc bcc body_type h :
  let to_list := strip <$> split "," to in
  let list_of (o : option string) :=
    match o with
    | Some s => if String.eqb s "" then [] else strip <$> split "," s
    | None => []
    end in
  length to_list = S (count_char "," to)
  /\ join "," (split "," to) = to
  /\ (forall s, strip <$> split "," (s ++ ",")
                = ((strip <$> split "," s) ++ [""])%list)
  /\ (forall a, a ∈ (to_list ++ list_of cc ++ list_of bcc)%list ->
      starts_space a = false /\ ends_space a = false)
  /\ (exists calls,
        snd (send_email to subject body cc bcc body_type h) = (h ++ calls)%list
        /\ forall msg from_addr to_addrs,
             send_message msg from_addr to_addrs ∈ calls ->
             to_addrs = (to_list ++ list_of cc ++ list_of bcc)%list
             /\ length to_addrs
                = (length to_list + length (list_of cc)
                   + length (list_of bcc))%nat)
  /\ (fst (send_email to subject body cc bcc body_type h) !! "success"
        = Some (VBool true) ->
      fst (send_email to subject body cc bcc body_type h) !! "recipients"
        = Some (VList (VStr <$> to_list))).
Proof.
  intros to_list list_of. split_and!.
  - subst to_list. rewrite length_fmap. apply length_split.
  - apply join_split.
  - intros s. apply parse_addresses_trailing.
  - intros a Ha.
    assert (Hs : exists seg, a = strip seg).
    { rewrite !elem_of_app in Ha. subst to_list list_of.
      destruct Ha as [Ha|[Ha|Ha]].
      - apply list_elem_of_fmap in Ha as (seg & -> & _). by exists seg.
      - destruct cc as [c|]; [|by apply elem_of_nil in Ha].
        destruct (String.eqb c ""); [by apply elem_of_nil in Ha|].
        apply list_elem_of_fmap in Ha as (seg & -> & _). by exists seg.
      - destruct bcc as [c|]; [|by apply elem_of_nil in Ha].
        destruct (String.eqb c ""); [by apply elem_of_nil in Ha|].
        apply list_elem_of_fmap in Ha as (seg & -> & _). by exists seg. }
    destruct Hs as [seg ->]. apply strip_trimmed.
  - destruct (send_email_early to subject body cc bcc body_type h)
      as [(msg & port & Hat)|(Hh & _)].
    + rewrite (send_email_history _ _ _ _ bcc _ h _ _ Hat).
      pose proof (deliver_runs use_tls (setting "SMTP_HOST") port
                    (setting "SMTP_USERNAME") (setting "SMTP_PASSWORD") msg
                    (parse_addresses to ++ optional_addresses cc
                     ++ optional_addresses bcc)%list h) as Hr.
      apply runs_history in Hr as (made & -> & Hpre & _).
      exists made. split; [reflexivity|].
      intros m f rc Hin.
      assert (Hp : send_message m f rc
                   ∈ planned_calls use_tls (setting "SMTP_HOST") port
                       (setting "SMTP_USERNAME") (setting "SMTP_PASSWORD") msg
                       (parse_addresses to ++ optional_addresses cc
                        ++ optional_addresses bcc)%list).
      { destruct Hpre as [rest ->]. apply elem_of_app. by left. }
      assert (rc = (to_list ++ list_of cc ++ list_of bcc)%list) as ->.
      { unfold planned_calls in Hp.
        destruct use_tls; cbn [app] in Hp;
          repeat (apply elem_of_cons in Hp as [Hp|Hp];
                  [first [discriminate Hp | by injection Hp as _ _ ->]|]);
          by apply elem_of_nil in Hp. }
      split; [reflexivity|]. rewrite !length_app. lia.
    + exists []. rewrite app_nil_r. split; [exact Hh|].
      intros m f rc Hin. by apply elem_of_nil in Hin.
  - intros Hs.
    destruct (send_email_sent _ _ _ _ _ _ _ Hs) as (-> & _). reflexivity.
Qed.

(* ===================================================================== *)
(** ** The bulk send *)
(* ===================================================================== *)

Lemma send_each_length recipients subject body body_type h :
  length (fst (send_each recipients subject body body_type h)) = length recipients.
Proof.
  revert h. induction recipients as [|r rs IH]; intros h; [reflexivity|].
  cbn [send_each].
  destruct (send_email r subject body None None body_type h) as [result h1].
  specialize (IH h1).
  destruct (send_each rs subject body body_type h1) as [results h2].
  cbn [fst length] in *. by rewrite IH.
Qed.

(** The loop, whatever its accumulators hold on entry: it appends one
    entry per recipient and adds to the two counters the number of sends
    that succeeded and that failed. *)
Lemma bulk_loop_send_each recipients subject body body_type results succeeded failed h :
  let each := send_each recipients subject body body_type h in
  bulk_loop recipients subject body body_type results succeeded failed h
  = (inr ((results ++ zip_with entry_of recipients (fst each))%list,
          (succeeded + Z.of_nat (length (List.filter succeeded_in (fst each))))%Z,
          (failed + Z.of_nat (length (List.filter
                                        (fun r => negb (succeeded_in r))
                                        (fst each))))%Z),
     snd each).
Proof.
  revert results succeeded failed h.
  induction recipients as [|r rs IH]; intros results succeeded failed h each.
  - subst each. cbn [bulk_loop send_each fst snd zip_with List.filter length].
    unfold ret. rewrite app_nil_r, !Z.add_0_r. reflexivity.
  - subst each. cbn [bulk_loop send_each].
    pose proof (send_email_outcome r subject body None None body_type h) as Ho.
    destruct (send_email r subject body None None body_type h) as [result h1].
    cbn [fst] in Ho. apply outcome_success in Ho as [b Hb].
    assert (Hsi : succeeded_in result = b)
      by (unfold succeeded_in; rewrite Hb; reflexivity).
    assert (Hent : entry_of r result = bulk_entry r (VBool b) result)
      by (unfold entry_of; rewrite Hb; reflexivity).
    rewrite Hb, IH.
    destruct (send_each rs subject body body_type h1) as [outs h2].
    cbn [fst snd zip_with List.filter].
    rewrite Hsi, Hent, <- app_assoc. cbn [app truthy].
    destruct b; cbn [negb length];
      rewrite ?Nat2Z.inj_succ, <- ?Z.add_1_l, ?Z.add_assoc; reflexivity.
Qed.

(** C3. With a non-empty list of recipients and non-empty subject and
    body, [send_bulk_email] takes the single-send path once per
    recipient, in input order and whatever the earlier sends returned,
    and aggregates: [total] is the number of recipients, [succeeded] and
    [failed] count the sends by outcome and add up to [total], [success]
    says that none failed, and [results] holds one entry per recipient in
    input order, made of the recipient and of the [success], [error] and
    [error_code] of the send to that recipient ([None] where the send
    returned no such key). *)
Theorem bulk_sends_each_and_aggregates recipients subject body body_type h :
  (0 < length recipients)%nat ->
  String.eqb subject "" = false ->
  String.eqb body "" = false ->
  let each := send_each recipients subject body body_type h in
  let out := send_bulk_email recipients subject body body_type h in
  let succeeded := length (List.filter succeeded_in (fst each)) in
  let failed := length (List.filter (fun r => negb (succeeded_in r)) (fst each)) in
  length (fst each) = length recipients
  /\ snd out = snd each
  /\ fst out !! "total" = Some (VInt (Z.of_nat (length recipients)))
  /\ fst out !! "succeeded" = Some (VInt (Z.of_nat succeeded))
  /\ fst out !! "failed" = Some (VInt (Z.of_nat failed))
  /\ (succeeded + failed = length recipients)%nat
  /\ fst out !! "success" = Some (VBool (Nat.eqb failed 0))
  /\ fst out !! "results"
     = Some (VList (zip_with
                      (fun recipient result =>
                         VDict [("recipient", VStr recipient);
                                ("success", default VNone (result !! "success"));
                                ("error", default VNone (result !! "error"));
                                ("error_code",
                                 default VNone (result !! "error_code"))])
                      recipients (fst each))).
Proof.
  intros Hlen Hs Hb each out succeeded failed.
  assert (Hout : out = ({[ "success" := VBool (Nat.eqb failed 0);
                           "total" := VInt (Z.of_nat (length recipients));
                           "succeeded" := VInt (Z.of_nat succeeded);
                           "failed" := VInt (Z.of_nat failed);
                           "results" := VList (zip_with entry_of recipients
                                                        (fst each)) ]},
                        snd each)).
  { subst out. unfold send_bulk_email.
    destruct recipients as [|r rs]; [cbn in Hlen; lia|].
    rewrite Hs, Hb, bulk_loop_send_each. fold each. cbn [app].
    rewrite !Z.add_0_l. fold succeeded failed.
    replace (Z.eqb (Z.of_nat failed) 0) with (Nat.eqb failed 0)
      by (destruct failed; reflexivity).
    reflexivity. }
  rewrite Hout. cbn [fst snd]. split_and!; try reflexivity.
  - apply send_each_length.
  - subst succeeded failed. rewrite <- (send_each_length recipients subject body body_type h).
    fold each. generalize (fst each). intros l.
    induction l as [|x l IH]; [reflexivity|].
    cbn [List.filter]. destruct (succeeded_in x); cbn [negb length]; lia.
Qed.

(* ===================================================================== *)
(** ** The templated send *)
(* ===================================================================== *)

Lemma concat_cons_empty x l : String.concat "" (x :: l) = x ++ String.concat "" l.
Proof.
  destruct l as [|y l]; [by rewrite append_nil_r|reflexivity].
Qed.

(** The loop that builds a fragment by appending one item per element
    yields the items in order. *)
Lemma fold_append {A} (item : A -> string) (l : list A) (acc : string) :
  fold_left (fun acc x => acc ++ item x) l acc
  = acc ++ String.concat "" (item <$> l).
Proof.
  revert acc. induction l as [|x l IH]; intros acc.
  - by rewrite append_nil_r.
  - cbn [fold_left]. rewrite IH, fmap_cons, concat_cons_empty.
    apply append_assoc.
Qed.

Lemma features_html_error template_type template_data e :
  features_html_of template_type template_data = inl e ->
  class_of e = TypeError.
Proof.
  unfold features_html_of.
  destruct (String.eqb template_type "welcome"
            && truthy (get template_data "features")); [|discriminate].
  destruct (get template_data "features"); cbn [iter];
    intros H; try discriminate H; by injection H as <-.
Qed.

Lemma details_html_error template_type template_data e :
  details_html_of template_type template_data = inl e ->
  class_of e = AttributeError.
Proof.
  unfold details_html_of.
  destruct (String.eqb template_type "alert"
            && truthy (get template_data "details")); [|discriminate].
  destruct (get template_data "details"); cbn [items];
    intros H; try discriminate H; by injection H as <-.
Qed.

Lemma stats_loop_error visited acc e :
  stats_loop visited acc = inl e -> class_of e = AttributeError.
Proof.
  revert acc. induction visited as [|stat rest IH]; intros acc; cbn [stats_loop].
  - discriminate.
  - destruct stat; cbn [stat_card];
      try (intros H; by injection H as <-).
    apply IH.
Qed.

Lemma stats_html_error template_type template_data e :
  stats_html_of template_type template_data = inl e ->
  class_of e = TypeError \/ class_of e = AttributeError.
Proof.
  unfold stats_html_of.
  destruct (String.eqb template_type "report"
            && truthy (get template_data "stats")); [|discriminate].
  destruct (iter (get template_data "stats")) as [e'|visited] eqn:Hi.
  - intros H. injection H as <-. left.
    destruct (get template_data "stats"); cbn [iter] in Hi;
      try discriminate Hi; by injection Hi as <-.
  - destruct (stats_loop visited _) as [e'|s] eqn:Hl; [|discriminate].
    intros H. injection H as <-. right. eapply stats_loop_error, Hl.
Qed.

(** The layouts a template type can select. *)
Lemma EMAIL_TEMPLATES_cases template_type layout :
  assoc template_type EMAIL_TEMPLATES = Some layout ->
  (template_type = "notification" /\ layout = notification_layout)
  \/ (template_type = "welcome" /\ layout = welcome_layout)
  \/ (template_type = "alert" /\ layout = alert_layout)
  \/ (template_type = "report" /\ layout = report_layout).
Proof.
  unfold EMAIL_TEMPLATES. cbn [assoc].
  destruct (String.eqb "notification" template_type) eqn:E1.
  { apply String.eqb_eq in E1 as <-. intros [= <-]. auto. }
  destruct (String.eqb "welcome" template_type) eqn:E2.
  { apply String.eqb_eq in E2 as <-. intros [= <-]. auto. }
  destruct (String.eqb "alert" template_type) eqn:E3.
  { apply String.eqb_eq in E3 as <-. intros [= <-]. auto. }
  destruct (String.eqb "report" template_type) eqn:E4.
  { apply String.eqb_eq in E4 as <-. intros [= <-]. auto 10. }
  discriminate.
Qed.

Lemma template_vars_filled template_type template_data vars :
  template_vars_of template_type template_data = inr vars ->
  exists features_html details_html stats_html,
    features_html_of template_type template_data = inr features_html
    /\ details_html_of template_type template_data = inr details_html
    /\ stats_html_of template_type template_data = inr stats_html
    /\ vars = filled_vars template_data features_html details_html stats_html.
Proof.
  unfold template_vars_of. cbv zeta.
  destruct (features_html_of template_type template_data) as [|f]; [discriminate|].
  destruct (details_html_of template_type template_data) as [|d]; [discriminate|].
  destruct (stats_html_of template_type template_data) as [|s]; [discriminate|].
  intros [= <-]. exists f, d, s. split_and!; reflexivity.
Qed.

Lemma template_vars_error template_type template_data e :
  template_vars_of template_type template_data = inl e ->
  isinstance e KeyError = false.
Proof.
  unfold template_vars_of. cbv zeta.
  destruct (features_html_of template_type template_data) as [e1|f] eqn:Hf.
  { intros [= <-]. apply features_html_error in Hf.
    unfold isinstance. by rewrite Hf. }
  destruct (details_html_of template_type template_data) as [e2|d] eqn:Hd.
  { intros [= <-]. apply details_html_error in Hd.
    unfold isinstance. by rewrite Hd. }
  destruct (stats_html_of template_type template_data) as [e3|s] eqn:Hs.
  { intros [= <-]. apply stats_html_error in Hs as [Hs|Hs];
      unfold isinstance; by rewrite Hs. }
  discriminate.
Qed.

(** Every placeholder of every layout is among the variables: formatting
    a layout with them always yields a text. *)
Lemma format_filled template_type layout template_data f d s :
  assoc template_type EMAIL_TEMPLATES = Some layout ->
  exists html, format layout (filled_vars template_data f d s) = inr html.
Proof.
  intros H.
  apply EMAIL_TEMPLATES_cases in H as [[_ ->]|[[_ ->]|[[_ ->]|[_ ->]]]];
    eexists; vm_compute; reflexivity.
Qed.

(** The welcome layout, filled. *)
Lemma format_welcome template_data f d s :
  format welcome_layout (filled_vars template_data f d s)
  = inr (welcome_text 0
         ++ py_format (get_or template_data "title" (VStr ""))
         ++ welcome_text 1
         ++ py_format (get_or template_data "message" (VStr ""))
         ++ welcome_text 2
         ++ f
         ++ welcome_text 3
         ++ button_html_of template_data
         ++ welcome_text 4
         ++ py_format (get_or template_data "extra_content" (VStr ""))
         ++ welcome_text 5
         ++ py_format (get_or template_data "footer"
                         (VStr "此邮件由系统自动发送，请勿回复。"))
         ++ welcome_text 6).
Proof. vm_compute. reflexivity. Qed.

Lemma html_body_error template_type template_data e :
  assoc template_type EMAIL_TEMPLATES <> None ->
  html_body_of template_type template_data = inl e ->
  isinstance e KeyError = false.
Proof.
  intros Ht. unfold html_body_of.
  destruct (template_vars_of template_type template_data) as [e'|vars] eqn:Hv.
  { intros [= <-]. eapply template_vars_error, Hv. }
  apply template_vars_filled in Hv as (f & d & s & _ & _ & _ & ->).
  destruct (assoc template_type EMAIL_TEMPLATES) as [layout|] eqn:Hl; [|done].
  destruct (format_filled _ _ template_data f d s Hl) as [html ->]. discriminate.
Qed.

Lemma template_failure_code e :
  isinstance e KeyError = false ->
  template_failure e = failure (str e) "UNEXPECTED_ERROR".
Proof. unfold template_failure. intros ->. reflexivity. Qed.

(** With template data of the modelled kinds, the handler for a missing
    template field is never the one that answers. *)
Lemma template_code_not_missing to subject template_type template_data cc bcc h :
  fst (send_email_with_template to subject template_type template_data cc bcc h)
    !! "error_code" <> Some (VStr "MISSING_TEMPLATE_FIELD").
Proof.
  unfold send_email_with_template.
  destruct (String.eqb to ""); [cbn [fst]; rewrite failure_code; discriminate|].
  destruct (String.eqb subject ""); [cbn [fst]; rewrite failure_code; discriminate|].
  destruct (assoc template_type EMAIL_TEMPLATES) as [layout|] eqn:Hl;
    [|cbn [fst]; rewrite failure_code; discriminate].
  destruct template_data as [| | | | |[|item d]];
    try (cbn [fst]; rewrite failure_code; discriminate).
  destruct (html_body_of template_type (item :: d)) as [e|html_body] eqn:Hb.
  { cbn [fst]. rewrite (template_failure_code e), failure_code; [discriminate|].
    eapply html_body_error, Hb. congruence. }
  pose proof (send_email_outcome to subject html_body cc bcc "html" h) as Ho.
  destruct (send_email to subject html_body cc bcc "html" h) as [result h'].
  cbn [fst] in Ho.
  assert (Hc : result !! "error_code" <> Some (VStr "MISSING_TEMPLATE_FIELD")).
  { intros Hc. apply (outcome_code _ _ Ho) in Hc. revert Hc.
    unfold send_email_codes. not_among. }
  destruct (outcome_success _ Ho) as [b ->].
  destruct (truthy (VBool b)); cbn [fst]; [|exact Hc].
  rewrite lookup_insert_ne; [exact Hc|discriminate].
Qed.

(** C2, amended. With template data built from [None], booleans,
    integers, strings, lists and string-keyed mappings, no call of
    [send_email_with_template] answers [MISSING_TEMPLATE_FIELD]: each
    placeholder of each of the four layouts is among the substitution
    variables, filled from the data, from a default or with a fragment,
    so that formatting the layout yields a text. Template data from
    which a fragment cannot be built is answered with
    [UNEXPECTED_ERROR]. *)
Theorem template_field_never_missing to subject template_type template_data
    cc bcc h :
  fst (send_email_with_template to subject template_type template_data cc bcc h)
    !! "error_code" <> Some (VStr "MISSING_TEMPLATE_FIELD")
  /\ (forall layout fields_data vars,
        assoc template_type EMAIL_TEMPLATES = Some layout ->
        template_vars_of template_type fields_data = inr vars ->
        (exists segs, parse layout = Some segs
                      /\ forall name, name ∈ fields segs -> is_Some (vars !! name))
        /\ exists html, format layout vars = inr html)
  /\ (forall item fields_data e,
        String.eqb to "" = false ->
        String.eqb subject "" = false ->
        assoc template_type EMAIL_TEMPLATES <> None ->
        template_data = VDict (item :: fields_data) ->
        html_body_of template_type (item :: fields_data) = inl e ->
        send_email_with_template to subject template_type template_data cc bcc h
        = (failure (str e) "UNEXPECTED_ERROR", h)).
Proof.
  split_and!; [apply template_code_not_missing| |].
  - intros layout fields_data vars Hl Hv.
    apply template_vars_filled in Hv as (f & d & s & _ & _ & _ & ->).
    split; [|eapply format_filled, Hl].
    apply EMAIL_TEMPLATES_cases in Hl as [[_ ->]|[[_ ->]|[[_ ->]|[_ ->]]]];
      (eexists; split; [vm_compute; reflexivity|]);
      cbn [fields]; intros name Hin;
      repeat (apply elem_of_cons in Hin as [->|Hin];
              [eexists; vm_compute; reflexivity|]);
      by apply elem_of_nil in Hin.
  - intros item fields_data e Ht Hs Hl -> Hb.
    unfold send_email_with_template. rewrite Ht, Hs.
    destruct (assoc template_type EMAIL_TEMPLATES) as [layout|] eqn:El; [|done].
    rewrite Hb, template_failure_code; [reflexivity|].
    eapply html_body_error, Hb. congruence.
Qed.

Lemma truthy_get_present template_data k :
  truthy (get template_data k) = true ->
  assoc k template_data = Some (get template_data k).
Proof.
  unfold get. destruct (assoc k template_data); [reflexivity|discriminate].
Qed.

(** C9. In a render of the welcome layout the button fragment is
    non-empty only when [button_text] and [button_url] are both present
    (and true), and is then the link built from them; the features
    fragment of a list of features is the block holding one item per
    element, in order; a missing [features], [button_text] or
    [button_url] leaves the empty string as its fragment; and the
    fragments stand in the rendered text at the places of their
    placeholders. *)
Theorem welcome_fragments template_data :
  (button_html_of template_data <> "" ->
   exists text url,
     assoc "button_text" template_data = Some text
     /\ assoc "button_url" template_data = Some url
     /\ truthy text = true /\ truthy url = true
     /\ button_html_of template_data
        = "<a href=" ++ dq ++ py_format url ++ dq ++ " class=" ++ dq
          ++ "button" ++ dq ++ ">" ++ py_format text ++ "</a>")
  /\ (assoc "button_text" template_data = None
      \/ assoc "button_url" template_data = None ->
      button_html_of template_data = "")
  /\ (forall features,
        assoc "features" template_data = Some (VList features) ->
        features_html_of "welcome" template_data
        = inr (match features with
               | [] => ""
               | _ => "<div class=" ++ dq ++ "features" ++ dq ++ ">"
                      ++ String.concat "" (feature_item <$> features)
                      ++ "</div>"
               end)
        /\ length (feature_item <$> features) = length features)
  /\ (assoc "features" template_data = None ->
      features_html_of "welcome" template_data = inr "")
  /\ (forall features_html,
        features_html_of "welcome" template_data = inr features_html ->
        html_body_of "welcome" template_data
        = inr (welcome_text 0
               ++ py_format (get_or template_data "title" (VStr ""))
               ++ welcome_text 1
               ++ py_format (get_or template_data "message" (VStr ""))
               ++ welcome_text 2
               ++ features_html
               ++ welcome_text 3
               ++ button_html_of template_data
               ++ welcome_text 4
               ++ py_format (get_or template_data "extra_content" (VStr ""))
               ++ welcome_text 5
               ++ py_format (get_or template_data "footer"
                               (VStr "此邮件由系统自动发送，请勿回复。"))
               ++ welcome_text 6)).
Proof.
  split_and!.
  - unfold button_html_of.
    destruct (truthy (get template_data "button_text")) eqn:Ht; [|done].
    destruct (truthy (get template_data "button_url")) eqn:Hu; [|done].
    intros _. exists (get template_data "button_text"), (get template_data "button_url").
    split_and!; auto using truthy_get_present.
  - unfold button_html_of, get. intros [-> | ->]; [reflexivity|].
    by rewrite andb_false_r.
  - intros features Hf. split; [|apply length_fmap].
    unfold features_html_of, get. rewrite Hf. cbn [default from_option id].
    change (String.eqb "welcome" "welcome") with true. cbn [andb].
    destruct features as [|x l]; [reflexivity|].
    cbn [truthy iter]. rewrite (fold_append feature_item), append_assoc.
    reflexivity.
  - intros Hf. unfold features_html_of, get. rewrite Hf.
    by rewrite andb_false_r.
  - intros features_html Hf. unfold html_body_of, template_vars_of.
    rewrite Hf. cbv zeta.
    change (details_html_of "welcome" template_data) with (@inr exn string "").
    change (stats_html_of "welcome" template_data) with (@inr exn string "").
    change (assoc "welcome" EMAIL_TEMPLATES) with (Some welcome_layout).
    exact (format_welcome template_data features_html "" "").
Qed.

(* ===================================================================== *)
(** ** More on the transport block *)
(* ===================================================================== *)

Lemma runs_fun calls h out1 h1 out2 h2 :
  runs calls h out1 h1 -> runs calls h out2 h2 -> out1 = out2 /\ h1 = h2.
Proof.
  intros H1. revert out2 h2.
  induction H1 as [h|c rest h e He|c rest h out h' Hc Hr IH];
    intros out2 h2 H2; inversion H2; subst.
  - auto.
  - split; congruence.
  - congruence.
  - congruence.
  - by apply IH.
Qed.

(** A call that reaches the transport block returns what the run of its
    planned calls gives. *)
Lemma send_email_run to subject body cc bcc body_type h msg port out h' :
  at_transport to subject body cc body_type msg port ->
  runs (planned_calls use_tls (setting "SMTP_HOST") port (setting "SMTP_USERNAME")
          (setting "SMTP_PASSWORD") msg
          (parse_addresses to ++ optional_addresses cc
           ++ optional_addresses bcc)%list) h out h' ->
  send_email to subject body cc bcc body_type h
  = (match out with
     | inl e => transport_failure e
     | inr _ => sent (parse_addresses to) (optional_addresses cc)
                     (optional_addresses bcc)
     end, h').
Proof.
  intros [Hprep Hport] Hr.
  rewrite (send_email_prepared _ _ _ _ bcc _ _ h Hprep), Hport.
  pose proof (deliver_runs use_tls (setting "SMTP_HOST") port
                (setting "SMTP_USERNAME") (setting "SMTP_PASSWORD") msg
                (parse_addresses to ++ optional_addresses cc
                 ++ optional_addresses bcc)%list h) as Hd.
  destruct (runs_fun _ _ _ _ _ _ Hd Hr) as [Ho Hh].
  destruct (deliver _ _ _ _ _ _ _ h) as [[e|[]] hd]; cbn [fst snd] in Ho, Hh;
    subst; reflexivity.
Qed.

Lemma take_S_cons {A} (x : A) l k : take (S k) (x :: l) = x :: take k l.
Proof. reflexivity. Qed.

(** Calls that all succeed, followed by one that raises. *)
Lemma runs_until made c rest h e :
  (forall k, (k < length made)%nat -> smtplib w (h ++ take (S k) made) = None) ->
  smtplib w (h ++ made ++ [c]) = Some e ->
  runs (made ++ c :: rest) h (inl e) (h ++ made ++ [c]).
Proof.
  revert h. induction made as [|m made IH]; intros h Hok He.
  - cbn [app] in *. by apply runs_raise.
  - cbn [app]. apply runs_next.
    + apply (Hok 0%nat). cbn. lia.
    + replace (h ++ m :: made ++ [c])%list with ((h ++ [m]) ++ made ++ [c])%list
        by (by rewrite <- app_assoc).
      apply IH.
      * intros k Hk. rewrite <- app_assoc. cbn [app].
        rewrite <- take_S_cons. apply Hok. cbn [length]. lia.
      * rewrite <- app_assoc. exact He.
Qed.



(** The code a transport failure is reported with, by exception class. *)
Lemma transport_failure_codes e :
  (isinstance e SMTPAuthenticationError = true ->
   transport_failure e !! "error_code" = Some (VStr "SMTP_AUTH_ERROR"))
  /\ (isinstance e SMTPAuthenticationError = false ->
      isinstance e SMTPException = true ->
      transport_failure e !! "error_code" = Some (VStr "SMTP_ERROR"))
  /\ (isinstance e SMTPException = false ->
      transport_failure e !! "error_code" = Some (VStr "SMTP_CONNECTION_ERROR")).
Proof.
  unfold transport_failure. split_and!.
  - intros ->. reflexivity.
  - intros -> ->. reflexivity.
  - intros Hs. destruct (isinstance e SMTPAuthenticationError) eqn:Ha.
    + apply isinstance_auth_smtp in Ha. congruence.
    + rewrite Hs. reflexivity.
Qed.

(** X1. Whichever call of the transport block is the first to raise, the
    call to [send_email] fails, makes no further call on the transport,
    and reports a code that depends on the class of the exception alone:
    [SMTP_AUTH_ERROR], [SMTP_ERROR] or [SMTP_CONNECTION_ERROR]. *)
Theorem first_raise_decides to subject body cc bcc body_type h msg port made c e :
  at_transport to subject body cc body_type msg port ->
  (made ++ [c])%list `prefix_of`
    planned_calls use_tls (setting "SMTP_HOST") port (setting "SMTP_USERNAME")
      (setting "SMTP_PASSWORD") msg
      (parse_addresses to ++ optional_addresses cc ++ optional_addresses bcc)%list ->
  (forall k, (k < length made)%nat -> smtplib w (h ++ take (S k) made) = None) ->
  smtplib w (h ++ made ++ [c]) = Some e ->
  let out := send_email to subject body cc bcc body_type h in
  snd out = (h ++ made ++ [c])%list
  /\ fst out !! "success" = Some (VBool false)
  /\ (isinstance e SMTPAuthenticationError = true ->
      fst out !! "error_code" = Some (VStr "SMTP_AUTH_ERROR"))
  /\ (isinstance e SMTPAuthenticationError = false ->
      isinstance e SMTPException = true ->
      fst out !! "error_code" = Some (VStr "SMTP_ERROR"))
  /\ (isinstance e SMTPException = false ->
      fst out !! "error_code" = Some (VStr "SMTP_CONNECTION_ERROR")).
Proof.
  intros Hat [rest Hpre] Hok He out. subst out.
  rewrite <- app_assoc in Hpre. cbn [app] in Hpre.
  pose proof (runs_until made c rest h e Hok He) as Hr.
  rewrite <- Hpre in Hr.
  rewrite (send_email_run _ _ _ _ bcc _ _ _ _ _ _ Hat Hr). cbn [fst snd].
  split; [reflexivity|]. split; [apply transport_failure_success|].
  apply transport_failure_codes.
Qed.


(** X3. On the transport nothing is done out of turn: a message is
    handed over only right after a [login] that succeeded, [login] is
    attempted only after the calls that open the channel succeeded, and
    [quit] is called only right after the message was accepted. *)
Theorem delivery_only_after_login to subject body cc bcc body_type h msg port :
  at_transport to subject body cc body_type msg port ->
  exists made,
    snd (send_email to subject body cc bcc body_type h) = (h ++ made)%list
    /\ (forall i m f rc,
          made !! i = Some (send_message m f rc) ->
          exists j, i = S j
                    /\ made !! j = Some (login (setting "SMTP_USERNAME")
                                               (setting "SMTP_PASSWORD"))
                    /\ smtplib w (h ++ take (S j) made) = None)
    /\ (forall i u p,
          made !! i = Some (login u p) ->
          exists j, i = S j /\ smtplib w (h ++ take (S j) made) = None)
    /\ (forall i,
          made !! i = Some quit ->
          exists j m f rc, i = S j
                           /\ made !! j = Some (send_message m f rc)
                           /\ smtplib w (h ++ take (S j) made) = None).
Proof.
  intros Hat. rewrite (send_email_history _ _ _ _ bcc _ h _ _ Hat).
  pose proof (deliver_runs use_tls (setting "SMTP_HOST") port
                (setting "SMTP_USERNAME") (setting "SMTP_PASSWORD") msg
                (parse_addresses to ++ optional_addresses cc
                 ++ optional_addresses bcc)%list h) as Hr.
  revert Hr.
  generalize (fst (deliver use_tls (setting "SMTP_HOST") port
                (setting "SMTP_USERNAME") (setting "SMTP_PASSWORD") msg
                (parse_addresses to ++ optional_addresses cc
                 ++ optional_addresses bcc)%list h)).
  generalize (snd (deliver use_tls (setting "SMTP_HOST") port
                (setting "SMTP_USERNAME") (setting "SMTP_PASSWORD") msg
                (parse_addresses to ++ optional_addresses cc
                 ++ optional_addresses bcc)%list h)).
  intros h' out Hr. unfold planned_calls in Hr.
  destruct use_tls; cbn [app] in Hr; invert_runs;
    rewrite <- ?app_assoc in *; cbn [app] in *.
  all: eexists; split; [reflexivity|].
  all: split_and!.
  all: try (intros i m f rc Hi;
            destruct i as [|[|[|[|[|i]]]]]; cbn in Hi; try discriminate Hi;
            eexists; split_and!;
            first [reflexivity | cbn [take app]; assumption]).
  all: try (intros i u p Hi;
            destruct i as [|[|[|[|[|i]]]]]; cbn in Hi; try discriminate Hi;
            eexists; split_and!;
            first [reflexivity | cbn [take app]; assumption]).
  all: intros i Hi;
    destruct i as [|[|[|[|[|i]]]]]; cbn in Hi; try discriminate Hi;
    do 4 eexists; split_and!;
    first [reflexivity | cbn [take app]; assumption].
Qed.

(* ===================================================================== *)
(** ** The message and its attachments *)
(* ===================================================================== *)

Lemma attach_files_readable files msg :
  forallb readable files = true ->
  attach_files files msg
  = inr {| headers := headers msg;
           parts := (parts msg ++ parts_of files)%list |}.
Proof.
  revert msg. induction files as [|f files IH]; intros msg Hr.
  - cbn [attach_files parts_of fmap list_fmap]. rewrite app_nil_r.
    by destruct msg.
  - cbn [forallb] in Hr. apply andb_true_iff in Hr as [Hf Hr].
    cbn [attach_files]. unfold readable in Hf.
    destruct (read f) as [e|payload] eqn:E; [discriminate|].
    assert (Hp : payload_of f = payload) by (unfold payload_of; by rewrite E).
    rewrite (IH _ Hr). unfold attach. cbn [headers parts].
    change (parts_of (f :: files))
      with (attachment_part f (payload_of f) :: parts_of files).
    by rewrite Hp, <- app_assoc.
Qed.

Lemma attach_files_inr files msg msg' :
  attach_files files msg = inr msg' -> forallb readable files = true.
Proof.
  revert msg. induction files as [|f files IH]; intros msg; [reflexivity|].
  cbn [attach_files forallb]. unfold readable at 1.
  destruct (read f) as [e|payload]; [discriminate|]. apply IH.
Qed.


Lemma new_message_headers smtp_username to subject cc body body_type :
  new_message smtp_username to subject cc body body_type
  = {| headers :=
         ([("From", smtp_username); ("To", to); ("Subject", subject)]
          ++ match cc with
             | Some c => if String.eqb c "" then [] else [("Cc", c)]
             | None => []
             end)%list;
       parts := [MIMEText body body_type "utf-8"] |}.
Proof.
  unfold new_message, set_header, attach. cbn [headers parts app].
  destruct cc as [c|]; cbn [truthy_opt]; [|reflexivity].
  destruct (String.eqb c ""); reflexivity.
Qed.

(** The message that leaves the attachment block. *)
Lemma attach_all_message to subject body cc body_type msg :
  attach_all (new_message (setting "SMTP_USERNAME") to subject cc body body_type)
    = inr (inr msg) ->
  msg = message_for to subject body cc body_type.
Proof.
  unfold attach_all, message_for, regular_files. rewrite new_message_headers.
  destruct (attachments_dir w) as [[e|entries]|].
  - discriminate.
  - intros [= H]. pose proof (attach_files_inr _ _ _ H) as Hr.
    rewrite (attach_files_readable _ _ Hr) in H. by injection H as <-.
  - intros [= <-]. reflexivity.
Qed.


(** X4. Every message handed to the transport is sent from the
    configured user name and carries the headers From, To and Subject,
    and Cc when a cc was given, with the texts as passed, and no header
    for the bcc addresses; its parts are the body followed by one
    attachment per regular file of the attachment directory, in listing
    order. *)
Theorem delivered_message to subject body cc bcc body_type h :
  exists made,
    snd (send_email to subject body cc bcc body_type h) = (h ++ made)%list
    /\ forall m from_addr to_addrs,
         send_message m from_addr to_addrs ∈ made ->
         from_addr = setting "SMTP_USERNAME"
         /\ m = message_for to subject body cc body_type
         /\ (forall k v, (k, v) ∈ headers m -> k <> "Bcc")
         /\ parts m = MIMEText body body_type "utf-8" :: parts_of regular_files
         /\ length (parts m) = S (length regular_files).
Proof.
  destruct (send_email_early to subject body cc bcc body_type h)
    as [(msg & port & Hat)|(Hh & _)].
  - rewrite (send_email_history _ _ _ _ bcc _ h _ _ Hat).
    pose proof (deliver_runs use_tls (setting "SMTP_HOST") port
                  (setting "SMTP_USERNAME") (setting "SMTP_PASSWORD") msg
                  (parse_addresses to ++ optional_addresses cc
                   ++ optional_addresses bcc)%list h) as Hr.
    apply runs_history in Hr as (made & -> & Hpre & _).
    exists made. split; [reflexivity|].
    intros m f rc Hin.
    assert (Hp : send_message m f rc
                 ∈ planned_calls use_tls (setting "SMTP_HOST") port
                     (setting "SMTP_USERNAME") (setting "SMTP_PASSWORD") msg
                     (parse_addresses to ++ optional_addresses cc
                      ++ optional_addresses bcc)%list).
    { destruct Hpre as [rest ->]. apply elem_of_app. by left. }
    assert (Hm : m = msg /\ f = setting "SMTP_USERNAME").
    { unfold planned_calls in Hp.
      destruct use_tls; cbn [app] in Hp;
        repeat (apply elem_of_cons in Hp as [Hp|Hp];
                [first [discriminate Hp | by injection Hp as -> -> _]|]);
        by apply elem_of_nil in Hp. }
    destruct Hm as [-> ->].
    destruct Hat as [(_ & _ & _ & _ & _ & Ha) _].
    apply attach_all_message in Ha as ->.
    split_and!; try reflexivity.
    + intros k v Hk. cbn [message_for headers] in Hk.
      rewrite elem_of_app in Hk. destruct Hk as [Hk|Hk].
      * repeat (apply elem_of_cons in Hk as [Hk|Hk];
                [injection Hk as -> _; discriminate|]).
        by apply elem_of_nil in Hk.
      * destruct cc as [c|]; [|by apply elem_of_nil in Hk].
        destruct (String.eqb c ""); [by apply elem_of_nil in Hk|].
        apply list_elem_of_singleton in Hk. injection Hk as -> _. discriminate.
    + cbn [message_for parts length]. unfold parts_of. by rewrite length_fmap.
  - exists []. rewrite app_nil_r. split; [exact Hh|].
    intros m f rc Hin. by apply elem_of_nil in Hin.
Qed.


(** X6. With the settings in place, the arguments are validated in the
    order [to], [subject], [body], [body_type]: the first that is empty,
    or a [body_type] other than [plain] and [html], decides the code, and
    no call is made on the transport. *)
Theorem arguments_validated_in_order to subject body cc bcc body_type h :
  configured ->
  let out := send_email to subject body cc bcc body_type h in
  (to = "" ->
   fst out !! "error_code" = Some (VStr "INVALID_RECIPIENT") /\ snd out = h)
  /\ (to <> "" -> subject = "" ->
      fst out !! "error_code" = Some (VStr "INVALID_SUBJECT") /\ snd out = h)
  /\ (to <> "" -> subject <> "" -> body = "" ->
      fst out !! "error_code" = Some (VStr "INVALID_BODY") /\ snd out = h)
  /\ (to <> "" -> subject <> "" -> body <> "" ->
      body_type <> "plain" -> body_type <> "html" ->
      fst out !! "error_code" = Some (VStr "INVALID_BODY_TYPE") /\ snd out = h).
Proof.
  intros Hc out. subst out. unfold configured in Hc.
  unfold send_email. cbv zeta. rewrite Hc. split_and!.
  - intros ->. cbn [String.eqb]. split; reflexivity.
  - intros Ht%String.eqb_neq ->. rewrite Ht. cbn [String.eqb]. split; reflexivity.
  - intros Ht%String.eqb_neq Hs%String.eqb_neq ->. rewrite Ht, Hs.
    cbn [String.eqb]. split; reflexivity.
  - intros Ht%String.eqb_neq Hs%String.eqb_neq Hb%String.eqb_neq
           Hp%String.eqb_neq Hh%String.eqb_neq.
    rewrite Ht, Hs, Hb, Hp, Hh. cbn [orb negb]. split; reflexivity.
Qed.

(* ===================================================================== *)
(** ** More on the bulk send *)
(* ===================================================================== *)

(** X7. [send_bulk_email] validates [recipients], [subject] and [body],
    in that order, before anything else: an empty one ends the call with
    its code and without a single send, whatever the environment holds,
    so that here the arguments are checked before the SMTP settings. *)
Theorem bulk_arguments_first recipients subject body body_type h :
  let out := send_bulk_email recipients subject body body_type h in
  (recipients = [] ->
   fst out !! "error_code" = Some (VStr "INVALID_RECIPIENTS") /\ snd out = h)
  /\ (recipients <> [] -> subject = "" ->
      fst out !! "error_code" = Some (VStr "INVALID_SUBJECT") /\ snd out = h)
  /\ (recipients <> [] -> subject <> "" -> body = "" ->
      fst out !! "error_code" = Some (VStr "INVALID_BODY") /\ snd out = h).
Proof.
  intros out. subst out. unfold send_bulk_email. split_and!.
  - intros ->. split; reflexivity.
  - intros Hr ->. destruct recipients; [done|]. split; reflexivity.
  - intros Hr Hs%String.eqb_neq ->. destruct recipients; [done|].
    rewrite Hs. split; reflexivity.
Qed.

(** The dictionary of an incomplete configuration, spelled out. *)
Lemma send_email_unconfigured to subject body cc bcc body_type h :
  List.filter unset required_settings <> [] ->
  send_email to subject body cc bcc body_type h
  = (<["missing_configs" := VList (VStr <$> List.filter unset required_settings)]>
       (failure ("缺少必需的 SMTP 配置: "
                 ++ join ", " (List.filter unset required_settings))
                "MISSING_SMTP_CONFIG"), h).
Proof.
  intros Hne. unfold send_email. cbv zeta. rewrite missing_of_filter.
  destruct (List.filter unset required_settings); [done|reflexivity].
Qed.

Lemma bulk_loop_unconfigured recipients subject body body_type results
    succeeded failed h :
  List.filter unset required_settings <> [] ->
  bulk_loop recipients subject body body_type results succeeded failed h
  = (inr ((results ++ (missing_config_entry <$> recipients))%list,
          succeeded, (failed + Z.of_nat (length recipients))%Z), h).
Proof.
  intros Hne. revert results succeeded failed.
  induction recipients as [|r rs IH]; intros results succeeded failed.
  - cbn [bulk_loop fmap list_fmap length]. unfold ret.
    by rewrite app_nil_r, Z.add_0_r.
  - cbn [bulk_loop]. rewrite (send_email_unconfigured _ _ _ _ _ _ _ Hne).
    change ((<["missing_configs" :=
                 VList (VStr <$> List.filter unset required_settings)]>
               (failure ("缺少必需的 SMTP 配置: "
                         ++ join ", " (List.filter unset required_settings))
                        "MISSING_SMTP_CONFIG")) !! "success")
      with (Some (VBool false)).
    cbn [truthy]. rewrite IH, fmap_cons, <- app_assoc. cbn [app length].
    rewrite Nat2Z.inj_succ, <- Z.add_1_l, Z.add_assoc. reflexivity.
Qed.

(** X8. When a required setting is absent or empty, a bulk send with
    valid arguments makes no call on the transport and reports every
    recipient as failed with [MISSING_SMTP_CONFIG]: [failed] equals
    [total], [succeeded] is 0 and [success] is false. *)
Theorem bulk_unconfigured recipients subject body body_type h :
  (exists k, k ∈ required_settings /\ unset k = true) ->
  (0 < length recipients)%nat ->
  String.eqb subject "" = false ->
  String.eqb body "" = false ->
  let out := send_bulk_email recipients subject body body_type h in
  snd out = h
  /\ fst out !! "success" = Some (VBool false)
  /\ fst out !! "total" = Some (VInt (Z.of_nat (length recipients)))
  /\ fst out !! "succeeded" = Some (VInt 0)
  /\ fst out !! "failed" = Some (VInt (Z.of_nat (length recipients)))
  /\ fst out !! "results" = Some (VList (missing_config_entry <$> recipients)).
Proof.
  intros (k & Hk & Hu) Hlen Hs Hb out. subst out.
  assert (Hne : List.filter unset required_settings <> []).
  { intros E. assert (Hin : In k (List.filter unset required_settings))
      by (apply filter_In; split; [by apply list_elem_of_In|exact Hu]).
    rewrite E in Hin. destruct Hin. }
  unfold send_bulk_email. destruct recipients as [|r rs]; [cbn in Hlen; lia|].
  rewrite Hs, Hb, (bulk_loop_unconfigured _ _ _ _ _ _ _ _ Hne).
  cbn [fst snd app]. rewrite Z.add_0_l.
  replace (Z.eqb (Z.of_nat (length (r :: rs))) 0) with false
    by (cbn [length]; by rewrite Nat2Z.inj_succ, <- Z.add_1_l;
        symmetry; apply Z.eqb_neq; lia).
  split_and!; reflexivity.
Qed.



(* ===================================================================== *)
(** ** More on the templated send *)
(* ===================================================================== *)

Lemma EMAIL_TEMPLATES_unknown template_type :
  template_type ∉ ["notification"; "welcome"; "alert"; "report"] ->
  assoc template_type EMAIL_TEMPLATES = None.
Proof.
  intros Hn. unfold EMAIL_TEMPLATES. cbn [assoc].
  assert (H : forall k, k ∈ ["notification"; "welcome"; "alert"; "report"] ->
                        String.eqb k template_type = false).
  { intros k Hk. apply String.eqb_neq. intros ->. by apply Hn. }
  rewrite !H; [reflexivity|..];
    solve [repeat first [apply list_elem_of_here | apply list_elem_of_further]].
Qed.

(** X10. [send_email_with_template] checks [to], [subject], the template
    type and the template data, in that order and before the SMTP
    settings are looked at: an unknown type is answered with
    [INVALID_TEMPLATE_TYPE] and the list of the four supported types, and
    data that is not a non-empty dict with [INVALID_TEMPLATE_DATA]; none
    of these calls reaches the transport. *)
Theorem template_arguments_first to subject template_type template_data cc bcc h :
  let out := send_email_with_template to subject template_type template_data
               cc bcc h in
  (to = "" ->
   fst out !! "error_code" = Some (VStr "INVALID_RECIPIENT") /\ snd out = h)
  /\ (to <> "" -> subject = "" ->
      fst out !! "error_code" = Some (VStr "INVALID_SUBJECT") /\ snd out = h)
  /\ (to <> "" -> subject <> "" ->
      template_type ∉ ["notification"; "welcome"; "alert"; "report"] ->
      out = (failure ("不支持的模板类型: " ++ template_type
                      ++ "。支持的类型：notification, welcome, alert, report")
                     "INVALID_TEMPLATE_TYPE", h))
  /\ (to <> "" -> subject <> "" ->
      template_type ∈ ["notification"; "welcome"; "alert"; "report"] ->
      (forall item d, template_data <> VDict (item :: d)) ->
      fst out !! "error_code" = Some (VStr "INVALID_TEMPLATE_DATA") /\ snd out = h).
Proof.
  intros out. subst out. unfold send_email_with_template. split_and!.
  - intros ->. split; reflexivity.
  - intros Ht%String.eqb_neq ->. rewrite Ht. split; reflexivity.
  - intros Ht%String.eqb_neq Hs%String.eqb_neq Hn.
    rewrite Ht, Hs, (EMAIL_TEMPLATES_unknown _ Hn). reflexivity.
  - intros Ht%String.eqb_neq Hs%String.eqb_neq Hin Hd. rewrite Ht, Hs.
    assert (Hl : exists layout, assoc template_type EMAIL_TEMPLATES = Some layout).
    { repeat (apply elem_of_cons in Hin as [->|Hin]; [eexists; reflexivity|]).
      by apply elem_of_nil in Hin. }
    destruct Hl as [layout ->].
    destruct template_data as [| | | | |[|item d]]; try (split; reflexivity).
    by destruct (Hd item d).
Qed.

Lemma outcome_no_template_type r : outcome r -> r !! "template_type" = None.
Proof. intros [ | | ]; reflexivity. Qed.

(** X11. Once its arguments pass and the layout is rendered, a templated
    send is the single send of the rendered text as an [html] body: the
    same calls on the transport and the same result, to which
    [template_type] is added when, and only when, the send succeeded. *)
Theorem templated_send_is_html_send to subject template_type item d cc bcc h html :
  String.eqb to "" = false ->
  String.eqb subject "" = false ->
  template_type ∈ ["notification"; "welcome"; "alert"; "report"] ->
  html_body_of template_type (item :: d) = inr html ->
  let single := send_email to subject html cc bcc "html" h in
  let out := send_email_with_template to subject template_type
               (VDict (item :: d)) cc bcc h in
  snd out = snd single
  /\ (forall k, k <> "template_type" -> fst out !! k = fst single !! k)
  /\ (fst single !! "success" = Some (VBool true) ->
      fst out !! "template_type" = Some (VStr template_type))
  /\ (fst single !! "success" <> Some (VBool true) ->
      fst out = fst single /\ fst out !! "template_type" = None).
Proof.
  intros Ht Hs Hin Hb single out. subst single out.
  unfold send_email_with_template. rewrite Ht, Hs.
  assert (Hl : exists layout, assoc template_type EMAIL_TEMPLATES = Some layout).
  { repeat (apply elem_of_cons in Hin as [->|Hin]; [eexists; reflexivity|]).
    by apply elem_of_nil in Hin. }
  destruct Hl as [layout ->]. rewrite Hb.
  pose proof (send_email_outcome to subject html cc bcc "html" h) as Ho.
  destruct (send_email to subject html cc bcc "html" h) as [result h'].
  cbn [fst snd] in *.
  pose proof (outcome_no_template_type _ Ho) as Hn.
  destruct (outcome_success _ Ho) as [b Hsb]. rewrite Hsb.
  destruct b; cbn [truthy fst snd].
  - split_and!; [reflexivity| |intros _; apply lookup_insert_eq|congruence].
    intros k Hk. by rewrite lookup_insert_ne.
  - split_and!; [reflexivity|reflexivity|congruence|auto].
Qed.

Lemma String_eqb_false_l a b : a <> b -> String.eqb a b = false.
Proof. apply String.eqb_neq. Qed.

(** X12. The optional fragments belong to one layout each: with any other
    template type the features, details or stats of the data are not
    looked at, well-formed or not, and their fragment is empty. A
    notification therefore renders whatever the data holds, with each
    value put as it is at the place of its placeholder. *)
Theorem fragments_by_template_type template_type template_data :
  (template_type <> "welcome" ->
   features_html_of template_type template_data = inr "")
  /\ (template_type <> "alert" ->
      details_html_of template_type template_data = inr "")
  /\ (template_type <> "report" ->
      stats_html_of template_type template_data = inr "")
  /\ html_body_of "notification" template_data
     = inr (layout_text notification_layout 0
            ++ py_format (get_or template_data "title" (VStr ""))
            ++ layout_text notification_layout 1
            ++ py_format (get_or template_data "heading" (VStr ""))
            ++ layout_text notification_layout 2
            ++ py_format (get_or template_data "message" (VStr ""))
            ++ layout_text notification_layout 3
            ++ button_html_of template_data
            ++ layout_text notification_layout 4
            ++ py_format (get_or template_data "extra_content" (VStr ""))
            ++ layout_text notification_layout 5
            ++ py_format (get_or template_data "footer"
                            (VStr "此邮件由系统自动发送，请勿回复。"))
            ++ layout_text notification_layout 6).
Proof.
  split_and!.
  - intros H%String_eqb_false_l. unfold features_html_of. by rewrite H.
  - intros H%String_eqb_false_l. unfold details_html_of. by rewrite H.
  - intros H%String_eqb_false_l. unfold stats_html_of. by rewrite H.
  - unfold html_body_of, template_vars_of.
    change (features_html_of "notification" template_data) with (@inr exn string "").
    change (details_html_of "notification" template_data) with (@inr exn string "").
    change (stats_html_of "notification" template_data) with (@inr exn string "").
    cbv zeta.
    change (assoc "notification" EMAIL_TEMPLATES) with (Some notification_layout).
    change (format notification_layout (filled_vars template_data "" "" "") = inr
      (layout_text notification_layout 0
            ++ py_format (get_or template_data "title" (VStr ""))
            ++ layout_text notification_layout 1
            ++ py_format (get_or template_data "heading" (VStr ""))
            ++ layout_text notification_layout 2
            ++ py_format (get_or template_data "message" (VStr ""))
            ++ layout_text notification_layout 3
            ++ button_html_of template_data
            ++ layout_text notification_layout 4
            ++ py_format (get_or template_data "extra_content" (VStr ""))
            ++ layout_text notification_layout 5
            ++ py_format (get_or template_data "footer"
                            (VStr "此邮件由系统自动发送，请勿回复。"))
            ++ layout_text notification_layout 6)).
    vm_compute. reflexivity.
Qed.

(** The details fragment is built by appending one row per item. *)
Lemma details_rows d :
  fold_left (fun acc kv => acc ++ detail_row kv) d
            ("<div class=" ++ dq ++ "details" ++ dq ++ ">")
  = ("<div class=" ++ dq ++ "details" ++ dq ++ ">")
    ++ String.concat "" (detail_row <$> d).
Proof. apply (fold_append detail_row). Qed.

(** X13. In an alert the details fragment of a non-empty dict of details
    is the block holding one row per item, key and value, in the order
    of the dict; details that are missing or empty leave no block;
    details that are true but not a dict end the render with an
    [AttributeError]. The fragment stands in the rendered alert at the
    place of its placeholder, and [alert_title] falls back on its
    default only when the key is missing. *)
Theorem alert_details template_data :
  (forall d, assoc "details" template_data = Some (VDict d) ->
     details_html_of "alert" template_data
     = inr (match d with
            | [] => ""
            | _ => "<div class=" ++ dq ++ "details" ++ dq ++ ">"
                   ++ String.concat "" (detail_row <$> d) ++ "</div>"
            end))
  /\ (assoc "details" template_data = None ->
      details_html_of "alert" template_data = inr "")
  /\ (forall v, assoc "details" template_data = Some v ->
      truthy v = true -> is_dict v = false ->
      exists e, details_html_of "alert" template_data = inl e
                /\ class_of e = AttributeError
                /\ html_body_of "alert" template_data = inl e)
  /\ (forall details_html,
        details_html_of "alert" template_data = inr details_html ->
        html_body_of "alert" template_data
        = inr (layout_text alert_layout 0
               ++ py_format (get_or template_data "title" (VStr ""))
               ++ layout_text alert_layout 1
               ++ py_format (get_or template_data "alert_title" (VStr "重要提示"))
               ++ layout_text alert_layout 2
               ++ py_format (get_or template_data "message" (VStr ""))
               ++ layout_text alert_layout 3
               ++ details_html
               ++ layout_text alert_layout 4
               ++ button_html_of template_data
               ++ layout_text alert_layout 5
               ++ py_format (get_or template_data "extra_content" (VStr ""))
               ++ layout_text alert_layout 6
               ++ py_format (get_or template_data "footer"
                               (VStr "此邮件由系统自动发送，请勿回复。"))
               ++ layout_text alert_layout 7)).
Proof.
  split_and!.
  - intros d Hd. unfold details_html_of, get. rewrite Hd.
    cbn [default from_option id].
    change (String.eqb "alert" "alert") with true. cbn [andb].
    destruct d as [|kv d]; [reflexivity|].
    cbn [truthy items]. rewrite details_rows, append_assoc. reflexivity.
  - intros Hd. unfold details_html_of, get. rewrite Hd. by rewrite andb_false_r.
  - intros v Hv Ht Hn.
    assert (Hd : details_html_of "alert" template_data
                 = inl (Raise AttributeError
                          ("'" ++ type_name v ++ "' object has no attribute 'items'"))).
    { unfold details_html_of, get. rewrite Hv. cbn [default from_option id].
      change (String.eqb "alert" "alert") with true. cbn [andb]. rewrite Ht.
      destruct v; try discriminate Hn; reflexivity. }
    eexists. split; [exact Hd|]. split; [reflexivity|].
    unfold html_body_of, template_vars_of.
    change (features_html_of "alert" template_data) with (@inr exn string "").
    cbv zeta. rewrite Hd. reflexivity.
  - intros details_html Hd. unfold html_body_of, template_vars_of.
    change (features_html_of "alert" template_data) with (@inr exn string "").
    change (stats_html_of "alert" template_data) with (@inr exn string "").
    cbv zeta. rewrite Hd.
    change (assoc "alert" EMAIL_TEMPLATES) with (Some alert_layout).
    change (format alert_layout (filled_vars template_data "" details_html "") = inr
      (layout_text alert_layout 0
               ++ py_format (get_or template_data "title" (VStr ""))
               ++ layout_text alert_layout 1
               ++ py_format (get_or template_data "alert_title" (VStr "重要提示"))
               ++ layout_text alert_layout 2
               ++ py_format (get_or template_data "message" (VStr ""))
               ++ layout_text alert_layout 3
               ++ details_html
               ++ layout_text alert_layout 4
               ++ button_html_of template_data
               ++ layout_text alert_layout 5
               ++ py_format (get_or template_data "extra_content" (VStr ""))
               ++ layout_text alert_layout 6
               ++ py_format (get_or template_data "footer"
                               (VStr "此邮件由系统自动发送，请勿回复。"))
               ++ layout_text alert_layout 7)).
    vm_compute. reflexivity.
Qed.

Lemma stats_loop_dicts ds acc :
  stats_loop (VDict <$> ds) acc
  = inr (acc ++ String.concat "" (stat_card_text <$> ds)).
Proof.
  revert acc. induction ds as [|d ds IH]; intros acc.
  - cbn [fmap list_fmap stats_loop]. by rewrite append_nil_r.
  - rewrite !fmap_cons. cbn [stats_loop].
    change (stat_card (VDict d)) with (@inr exn string (stat_card_text d)).
    cbv iota. rewrite IH, concat_cons_empty, append_assoc. reflexivity.
Qed.

Lemma stats_loop_not_dict visited acc :
  forallb is_dict visited = false ->
  exists e, stats_loop visited acc = inl e /\ class_of e = AttributeError.
Proof.
  revert acc. induction visited as [|stat rest IH]; intros acc H; [discriminate|].
  cbn [forallb] in H. cbn [stats_loop].
  destruct stat; cbn [is_dict andb] in H;
    try (eexists; split; [reflexivity|reflexivity]).
  cbn [stat_card]. by apply IH.
Qed.

(** X14. In a report the stats fragment of a non-empty list of dicts is
    the block holding one card per stat, in order, a stat without value
    showing [N/A] and one without label an empty label; stats that are
    missing or empty leave no block; a stat that is not a dict ends the
    render with an [AttributeError]. The fragment stands in the rendered
    report at the place of its placeholder. *)
Theorem report_stats template_data :
  (forall ds, assoc "stats" template_data = Some (VList (VDict <$> ds)) ->
     stats_html_of "report" template_data
     = inr (match ds with
            | [] => ""
            | _ => "<div class=" ++ dq ++ "stats" ++ dq ++ ">"
                   ++ String.concat "" (stat_card_text <$> ds) ++ "</div>"
            end))
  /\ (assoc "stats" template_data = None ->
      stats_html_of "report" template_data = inr "")
  /\ (forall l, assoc "stats" template_data = Some (VList l) ->
      forallb is_dict l = false ->
      exists e, stats_html_of "report" template_data = inl e
                /\ class_of e = AttributeError
                /\ html_body_of "report" template_data = inl e)
  /\ (forall stats_html,
        stats_html_of "report" template_data = inr stats_html ->
        html_body_of "report" template_data
        = inr (layout_text report_layout 0
               ++ py_format (get_or template_data "title" (VStr ""))
               ++ layout_text report_layout 1
               ++ py_format (get_or template_data "summary_title" (VStr "摘要"))
               ++ layout_text report_layout 2
               ++ py_format (get_or template_data "message" (VStr ""))
               ++ layout_text report_layout 3
               ++ stats_html
               ++ layout_text report_layout 4
               ++ button_html_of template_data
               ++ layout_text report_layout 5
               ++ py_format (get_or template_data "extra_content" (VStr ""))
               ++ layout_text report_layout 6
               ++ py_format (get_or template_data "footer"
                               (VStr "此邮件由系统自动发送，请勿回复。"))
               ++ layout_text report_layout 7)).
Proof.
  split_and!.
  - intros ds Hd. unfold stats_html_of, get. rewrite Hd.
    cbn [default from_option id].
    change (String.eqb "report" "report") with true. cbn [andb].
    destruct ds as [|d ds]; [reflexivity|].
    rewrite fmap_cons. cbn [truthy iter]. rewrite <- fmap_cons.
    rewrite stats_loop_dicts, append_assoc. reflexivity.
  - intros Hd. unfold stats_html_of, get. rewrite Hd. by rewrite andb_false_r.
  - intros l Hl Hn.
    assert (Hne : truthy (VList l) = true) by (destruct l; [discriminate|reflexivity]).
    destruct (stats_loop_not_dict l ("<div class=" ++ dq ++ "stats" ++ dq ++ ">") Hn)
      as (e & He & Hc).
    assert (Hs : stats_html_of "report" template_data = inl e).
    { unfold stats_html_of, get. rewrite Hl. cbn [default from_option id].
      change (String.eqb "report" "report") with true. cbn [andb].
      rewrite Hne. cbn [iter]. by rewrite He. }
    exists e. split_and!; [exact Hs|exact Hc|].
    unfold html_body_of, template_vars_of.
    change (features_html_of "report" template_data) with (@inr exn string "").
    change (details_html_of "report" template_data) with (@inr exn string "").
    cbv zeta. by rewrite Hs.
  - intros stats_html Hd. unfold html_body_of, template_vars_of.
    change (features_html_of "report" template_data) with (@inr exn string "").
    change (details_html_of "report" template_data) with (@inr exn string "").
    cbv zeta. rewrite Hd.
    change (assoc "report" EMAIL_TEMPLATES) with (Some report_layout).
    change (format report_layout (filled_vars template_data "" "" stats_html) = inr
      (layout_text report_layout 0
               ++ py_format (get_or template_data "title" (VStr ""))
               ++ layout_text report_layout 1
               ++ py_format (get_or template_data "summary_title" (VStr "摘要"))
               ++ layout_text report_layout 2
               ++ py_format (get_or template_data "message" (VStr ""))
               ++ layout_text report_layout 3
               ++ stats_html
               ++ layout_text report_layout 4
               ++ button_html_of template_data
               ++ layout_text report_layout 5
               ++ py_format (get_or template_data "extra_content" (VStr ""))
               ++ layout_text report_layout 6
               ++ py_format (get_or template_data "footer"
                               (VStr "此邮件由系统自动发送，请勿回复。"))
               ++ layout_text report_layout 7)).
    vm_compute. reflexivity.
Qed.

(* ===================================================================== *)
(** ** More on addresses, the secure-upgrade switch and results *)
(* ===================================================================== *)

Lemma split_no_sep sep a : count_char sep a = 0%nat -> split sep a = [a].
Proof.
  induction a as [|c a IH]; [reflexivity|].
  cbn [count_char]. rewrite split_cons.
  destruct (Ascii.eqb c sep); [discriminate|]. cbn [Nat.add].
  intros H. by rewrite (IH H).
Qed.

Lemma split_app_sep sep a rest :
  count_char sep a = 0%nat ->
  split sep (a ++ String sep rest) = a :: split sep rest.
Proof.
  induction a as [|c a IH].
  - intros _. change ("" ++ String sep rest) with (String sep rest).
    by rewrite split_cons, Ascii.eqb_refl.
  - cbn [count_char]. rewrite append_cons, split_cons.
    destruct (Ascii.eqb c sep); [discriminate|]. cbn [Nat.add].
    intros H. by rewrite (IH H).
Qed.

Lemma split_join sep l :
  l <> [] ->
  (forall a, a ∈ l -> count_char sep a = 0%nat) ->
  split sep (join (String sep "") l) = l.
Proof.
  unfold join. induction l as [|a l IH]; [done|]. intros _ Hl.
  destruct l as [|b l].
  - cbn [String.concat]. apply split_no_sep, Hl, list_elem_of_here.
  - change (String.concat (String sep "") (a :: b :: l))
      with (a ++ String sep (String.concat (String sep "") (b :: l))).
    rewrite split_app_sep by apply Hl, list_elem_of_here.
    rewrite IH; [reflexivity|done|].
    intros x Hx. by apply Hl, list_elem_of_further.
Qed.

Lemma strip_fixed a :
  starts_space a = false -> ends_space a = false -> strip a = a.
Proof.
  intros Hs He. unfold strip, rstrip. unfold ends_space in He.
  rewrite (lstrip_rev_fixed _ He), rev_rev. by apply lstrip_fixed.
Qed.

(** X15. Addresses that hold no comma and no whitespace at their ends
    survive the trip through the comma-separated form: joining them with
    [","] and parsing the text gives the same addresses, in the same
    order. *)
Theorem parse_joined_addresses addresses :
  (0 < length addresses)%nat ->
  forallb clean_address addresses = true ->
  parse_addresses (join "," addresses) = addresses.
Proof.
  intros Hlen Hc. unfold parse_addresses.
  assert (Hall : forall a, a ∈ addresses -> clean_address a = true).
  { intros a Ha. apply list_elem_of_In in Ha.
    rewrite forallb_forall in Hc. by apply Hc. }
  rewrite split_join.
  - clear Hlen Hc. induction addresses as [|a l IH]; [reflexivity|].
    rewrite fmap_cons. f_equal.
    + specialize (Hall a (list_elem_of_here _ _)). unfold clean_address in Hall.
      apply andb_true_iff in Hall as [Hall He].
      apply andb_true_iff in Hall as [_ Hs].
      apply negb_true_iff in He, Hs. by apply strip_fixed.
    + apply IH. intros x Hx. by apply Hall, list_elem_of_further.
  - destruct addresses; [cbn in Hlen; lia|done].
  - intros a Ha. specialize (Hall a Ha). unfold clean_address in Hall.
    apply andb_true_iff in Hall as [Hall _].
    apply andb_true_iff in Hall as [Hn _]. by apply Nat.eqb_eq.
Qed.

Lemma lower_ascii_t c :
  Ascii.eqb (lower_ascii c) "t" = (Ascii.eqb c "t" || Ascii.eqb c "T").
Proof. destruct c as [[] [] [] [] [] [] [] []]; reflexivity. Qed.

Lemma lower_ascii_r c :
  Ascii.eqb (lower_ascii c) "r" = (Ascii.eqb c "r" || Ascii.eqb c "R").
Proof. destruct c as [[] [] [] [] [] [] [] []]; reflexivity. Qed.

Lemma lower_ascii_u c :
  Ascii.eqb (lower_ascii c) "u" = (Ascii.eqb c "u" || Ascii.eqb c "U").
Proof. destruct c as [[] [] [] [] [] [] [] []]; reflexivity. Qed.

Lemma lower_ascii_e c :
  Ascii.eqb (lower_ascii c) "e" = (Ascii.eqb c "e" || Ascii.eqb c "E").
Proof. destruct c as [[] [] [] [] [] [] [] []]; reflexivity. Qed.

Lemma lower_true v : String.eqb (lower v) "true" = spells_true v.
Proof.
  destruct v as [|a [|b [|c [|d [|x v]]]]]; cbn [lower spells_true String.eqb];
    rewrite ?lower_ascii_t, ?lower_ascii_r, ?lower_ascii_u, ?lower_ascii_e;
    try reflexivity.
  - by destruct (Ascii.eqb a "t" || Ascii.eqb a "T").
  - destruct (Ascii.eqb a "t" || Ascii.eqb a "T"); [|reflexivity].
    by destruct (Ascii.eqb b "r" || Ascii.eqb b "R").
  - destruct (Ascii.eqb a "t" || Ascii.eqb a "T"); [|reflexivity].
    destruct (Ascii.eqb b "r" || Ascii.eqb b "R"); [|reflexivity].
    by destruct (Ascii.eqb c "u" || Ascii.eqb c "U").
  - destruct (Ascii.eqb a "t" || Ascii.eqb a "T"); [|reflexivity].
    destruct (Ascii.eqb b "r" || Ascii.eqb b "R"); [|reflexivity].
    destruct (Ascii.eqb c "u" || Ascii.eqb c "U"); [|reflexivity].
    by destruct (Ascii.eqb d "e" || Ascii.eqb d "E").
  - destruct (Ascii.eqb a "t" || Ascii.eqb a "T"); [|reflexivity].
    destruct (Ascii.eqb b "r" || Ascii.eqb b "R"); [|reflexivity].
    destruct (Ascii.eqb c "u" || Ascii.eqb c "U"); [|reflexivity].
    by destruct (Ascii.eqb d "e" || Ascii.eqb d "E").
Qed.

(** X16. A value of [SMTP_USE_TLS] selects the secure upgrade exactly when
    it spells [true], in any letter case; every other value, such as
    [yes], [1] or the empty string, selects the implicitly secured
    channel, and a call that reaches the transport block then starts
    with [SMTP_SSL]. *)
Theorem secure_upgrade_switch to subject body cc bcc body_type h msg port v :
  getenv "SMTP_USE_TLS" = Some v ->
  at_transport to subject body cc body_type msg port ->
  use_tls = spells_true v
  /\ exists made,
       snd (send_email to subject body cc bcc body_type h) = (h ++ made)%list
       /\ head made
          = Some (if spells_true v then SMTP (setting "SMTP_HOST") port
                  else SMTP_SSL (setting "SMTP_HOST") port).
Proof.
  intros Hv Hat.
  assert (Hu : use_tls = spells_true v).
  { unfold use_tls. rewrite Hv. apply lower_true. }
  split; [exact Hu|]. rewrite <- Hu.
  rewrite (send_email_history _ _ _ _ bcc _ h _ _ Hat).
  pose proof (deliver_runs use_tls (setting "SMTP_HOST") port
                (setting "SMTP_USERNAME") (setting "SMTP_PASSWORD") msg
                (parse_addresses to ++ optional_addresses cc
                 ++ optional_addresses bcc)%list h) as Hr.
  apply runs_history in Hr as (made & -> & [rest Hpre] & Hne & _).
  exists made. split; [reflexivity|].
  unfold planned_calls in Hpre, Hne.
  destruct made as [|c made]; [destruct use_tls; by destruct Hne|].
  destruct use_tls; cbn [app] in Hpre; injection Hpre as <- _; reflexivity.
Qed.

(** X17. A result of [send_email] has one of two shapes: [success] true
    with a message and the recipients and neither [error] nor
    [error_code]; or [success] false with an [error] text and one of the
    eleven codes of the function, and neither message nor recipients. *)
Theorem result_shape to subject body cc bcc body_type h :
  let r := fst (send_email to subject body cc bcc body_type h) in
  (r !! "success" = Some (VBool true)
   /\ r !! "message" = Some (VStr "邮件发送成功")
   /\ r !! "recipients" = Some (VList (VStr <$> parse_addresses to))
   /\ r !! "error" = None
   /\ r !! "error_code" = None)
  \/ (r !! "success" = Some (VBool false)
      /\ (exists error, r !! "error" = Some (VStr error))
      /\ (exists code, r !! "error_code" = Some (VStr code)
                       /\ code ∈ send_email_codes)
      /\ r !! "message" = None
      /\ r !! "recipients" = None).
Proof.
  intros r. subst r.
  pose proof (send_email_outcome to subject body cc bcc body_type h) as Ho.
  destruct (fst (send_email to subject body cc bcc body_type h) !! "success")
    as [[| [] | | | |]|] eqn:Hs;
    try (destruct (outcome_success _ Ho) as [b Hb]; congruence).
  - left. destruct (send_email_sent _ _ _ _ _ _ _ Hs) as [-> _].
    split_and!; reflexivity.
  - right. destruct Ho as [ta ca ba|error code Hin|error missing].
    + rewrite sent_success in Hs. discriminate.
    + split_and!; [reflexivity|by eexists|eexists; split; [reflexivity|exact Hin]
                  |reflexivity|reflexivity].
    + split_and!; [reflexivity|by eexists| |reflexivity|reflexivity].
      eexists; split; [reflexivity|in_codes].
Qed.

(* ===================================================================== *)
(** ** The sessions of a bulk send *)
(* ===================================================================== *)






End Prefab.

(* ===================================================================== *)
(** ** The statements at concrete calls *)
(* ===================================================================== *)

(** The server rejects the credentials: the code is [SMTP_AUTH_ERROR]. *)
Lemma auth_failure_code_witness :
  at_transport ascii_int auth_rejecting_world
    "user@example.com" "Test Email" "Test body" None "plain" test_message 587
  /\ fst (send_email ascii_int auth_rejecting_world
            "user@example.com" "Test Email" "Test body" None None "plain" [])
     !! "error_code" = Some (VStr "SMTP_AUTH_ERROR").
Proof.
  assert (Hat : at_transport ascii_int auth_rejecting_world
                  "user@example.com" "Test Email" "Test body" None "plain"
                  test_message 587)
    by (repeat split; reflexivity).
  split; [exact Hat|].
  destruct (auth_failure_code ascii_int auth_rejecting_world
              "user@example.com" "Test Email" "Test body" None None "plain" []
              test_message 587 [SMTP "smtp.example.com" 587; starttls]
              auth_rejected Hat eq_refl eq_refl) as (_ & _ & Ha & _).
  apply Ha. reflexivity.
Defined.

(** C1 as stated fails: [login] raising [SMTPAuthenticationError] is
    answered with [SMTP_AUTH_ERROR], not [SMTP_CONNECTION_ERROR]. *)
Lemma auth_failure_counterexample :
  snd (send_email ascii_int auth_rejecting_world
         "user@example.com" "Test Email" "Test body" None None "plain" [])
  = [SMTP "smtp.example.com" 587; starttls;
     login "test@example.com" "test-password"]
  /\ smtplib auth_rejecting_world
       [SMTP "smtp.example.com" 587; starttls;
        login "test@example.com" "test-password"]
     = Some auth_rejected
  /\ fst (send_email ascii_int auth_rejecting_world
            "user@example.com" "Test Email" "Test body" None None "plain" [])
     !! "success" = Some (VBool false)
  /\ fst (send_email ascii_int auth_rejecting_world
            "user@example.com" "Test Email" "Test body" None None "plain" [])
     !! "error_code" = Some (VStr "SMTP_AUTH_ERROR")
  /\ fst (send_email ascii_int auth_rejecting_world
            "user@example.com" "Test Email" "Test body" None None "plain" [])
     !! "error_code" <> Some (VStr "SMTP_CONNECTION_ERROR").
Proof. split_and!; [reflexivity..|vm_compute; discriminate]. Qed.

(** The path the test suite takes: a [login] that raises a plain
    [Exception] is answered with [SMTP_CONNECTION_ERROR]. *)
Example test_send_email_auth_error :
  fst (send_email ascii_int mock_auth_error_world
         "user@example.com" "Test Email" "Test body" None None "plain" [])
  !! "error_code" = Some (VStr "SMTP_CONNECTION_ERROR").
Proof. reflexivity. Qed.

(** C2 as stated fails: with fields built from [None], booleans,
    integers, strings, lists and string-keyed mappings, no call is
    answered with [MISSING_TEMPLATE_FIELD], whatever placeholders the
    fields leave out. *)
Lemma missing_template_field_counterexample :
  ~ exists int py_str w to subject template_type fields cc bcc h,
      assoc template_type EMAIL_TEMPLATES <> None
      /\ fields <> []
      /\ fst (send_email_with_template int py_str w to subject template_type
                (VDict fields) cc bcc h)
         !! "error_code" = Some (VStr "MISSING_TEMPLATE_FIELD").
Proof.
  intros (int & py_str & w & to & subject & template_type & fields & cc & bcc
          & h & _ & _ & H).
  exact (template_code_not_missing int py_str w _ _ _ _ _ _ _ H).
Qed.

(** A notification without title and heading is rendered and sent; the
    placeholders left out are filled with their defaults. *)
Lemma template_field_never_missing_witness :
  fst (send_email_with_template ascii_int str_of_constant working_world
         "user@example.com" "Notice" "notification" (VDict message_only)
         None None [])
  !! "error_code" <> Some (VStr "MISSING_TEMPLATE_FIELD")
  /\ fst (send_email_with_template ascii_int str_of_constant working_world
            "user@example.com" "Notice" "notification" (VDict message_only)
            None None [])
     !! "success" = Some (VBool true)
  /\ exists html,
       format str_of_constant notification_layout
         (filled_vars str_of_constant message_only "" "" "") = inr html.
Proof.
  destruct (template_field_never_missing ascii_int str_of_constant working_world
              "user@example.com" "Notice" "notification" (VDict message_only)
              None None []) as (Hc & Hv & _).
  split_and!; [exact Hc|reflexivity|].
  apply (Hv notification_layout message_only); reflexivity.
Defined.

(** Features that cannot be iterated over end the call with
    [UNEXPECTED_ERROR]. *)
Example features_not_iterable py_str :
  fst (send_email_with_template ascii_int py_str working_world
         "user@example.com" "Welcome" "welcome"
         (VDict [("title", VStr "Welcome"); ("features", VInt 5)]) None None [])
  !! "error_code" = Some (VStr "UNEXPECTED_ERROR").
Proof. reflexivity. Qed.

(** The bulk example of the specification: of three recipients the second
    is refused. The sends to the first and the third go through, and the
    entries stand in input order, each with its recipient and with the
    outcome of the send to that recipient. *)
Lemma bulk_sends_each_and_aggregates_witness :
  (0 < length ["ok@x.com"; "bad@x.com"; "ok2@x.com"])%nat
  /\ fst (send_bulk_email ascii_int rejecting_world
            ["ok@x.com"; "bad@x.com"; "ok2@x.com"] "Notice" "Hello" "plain" [])
     !! "total" = Some (VInt 3)
  /\ fst (send_bulk_email ascii_int rejecting_world
            ["ok@x.com"; "bad@x.com"; "ok2@x.com"] "Notice" "Hello" "plain" [])
     !! "succeeded" = Some (VInt 2)
  /\ fst (send_bulk_email ascii_int rejecting_world
            ["ok@x.com"; "bad@x.com"; "ok2@x.com"] "Notice" "Hello" "plain" [])
     !! "failed" = Some (VInt 1)
  /\ fst (send_bulk_email ascii_int rejecting_world
            ["ok@x.com"; "bad@x.com"; "ok2@x.com"] "Notice" "Hello" "plain" [])
     !! "success" = Some (VBool false)
  /\ fst (send_bulk_email ascii_int rejecting_world
            ["ok@x.com"; "bad@x.com"; "ok2@x.com"] "Notice" "Hello" "plain" [])
     !! "results"
     = Some (VList
         [VDict [("recipient", VStr "ok@x.com"); ("success", VBool true);
                 ("error", VNone); ("error_code", VNone)];
          VDict [("recipient", VStr "bad@x.com"); ("success", VBool false);
                 ("error", VStr "SMTP 错误: {'bad@x.com': (550, b'User unknown')}");
                 ("error_code", VStr "SMTP_ERROR")];
          VDict [("recipient", VStr "ok2@x.com"); ("success", VBool true);
                 ("error", VNone); ("error_code", VNone)]]).
Proof.
  assert (Hlen : (0 < length ["ok@x.com"; "bad@x.com"; "ok2@x.com"])%nat)
    by (cbn; lia).
  destruct (bulk_sends_each_and_aggregates ascii_int rejecting_world
              ["ok@x.com"; "bad@x.com"; "ok2@x.com"] "Notice" "Hello" "plain" []
              Hlen eq_refl eq_refl)
    as (_ & _ & Ht & Hs & Hf & _ & Hok & Hr).
  split_and!; [exact Hlen|exact Ht|exact Hs|exact Hf|exact Hok|exact Hr].
Defined.

(** The send example of the specification: two to-addresses, one cc, one
    bcc, a working transport. *)
Lemma success_result_witness :
  fst (send_email ascii_int working_world "a@x.com,b@x.com" "Hi" "Hello"
         (Some "c@x.com") (Some "d@x.com") "plain" [])
  !! "success" = Some (VBool true)
  /\ fst (send_email ascii_int working_world "a@x.com,b@x.com" "Hi" "Hello"
            (Some "c@x.com") (Some "d@x.com") "plain" [])
     !! "recipients" = Some (VList [VStr "a@x.com"; VStr "b@x.com"])
  /\ fst (send_email ascii_int working_world "a@x.com,b@x.com" "Hi" "Hello"
            (Some "c@x.com") (Some "d@x.com") "plain" [])
     !! "cc" = Some (VList [VStr "c@x.com"])
  /\ fst (send_email ascii_int working_world "a@x.com,b@x.com" "Hi" "Hello"
            (Some "c@x.com") (Some "d@x.com") "plain" [])
     !! "bcc_count" = Some (VInt 1)
  /\ exists calls msg,
       snd (send_email ascii_int working_world "a@x.com,b@x.com" "Hi" "Hello"
              (Some "c@x.com") (Some "d@x.com") "plain" []) = calls
       /\ send_message msg "test@example.com"
            ["a@x.com"; "b@x.com"; "c@x.com"; "d@x.com"] ∈ calls.
Proof.
  assert (Hs : fst (send_email ascii_int working_world "a@x.com,b@x.com" "Hi"
                      "Hello" (Some "c@x.com") (Some "d@x.com") "plain" [])
               !! "success" = Some (VBool true)) by reflexivity.
  destruct (success_result ascii_int working_world "a@x.com,b@x.com" "Hi"
              "Hello" (Some "c@x.com") (Some "d@x.com") "plain" [] Hs)
    as (Hr & _ & Hcc & Hb & _ & calls & msg & Hh & Hin).
  split_and!; [exact Hs|exact Hr| |exact Hb|exists calls, msg; split; [exact Hh|exact Hin]].
  apply (Hcc "c@x.com" eq_refl). discriminate.
Defined.

(** Nothing is configured: all four settings are listed. *)
Lemma missing_config_lists_unset_witness :
  (exists k, k ∈ required_settings /\ unset no_env_world k = true)
  /\ fst (send_email ascii_int no_env_world
            "user@example.com" "Test" "Test body" None None "plain" [])
     !! "missing_configs"
     = Some (VList [VStr "SMTP_HOST"; VStr "SMTP_PORT"; VStr "SMTP_USERNAME";
                    VStr "SMTP_PASSWORD"])
  /\ snd (send_email ascii_int no_env_world
            "user@example.com" "Test" "Test body" None None "plain" []) = [].
Proof.
  assert (H : exists k, k ∈ required_settings /\ unset no_env_world k = true).
  { exists "SMTP_HOST". split; [apply list_elem_of_here|reflexivity]. }
  destruct (missing_config_lists_unset ascii_int no_env_world
              "user@example.com" "Test" "Test body" None None "plain" [] H)
    as (_ & _ & Hm & Hh & _).
  split_and!; [exact H|exact Hm|exact Hh].
Defined.

(** C5 as stated fails: with [SMTP_HOST] absent and [SMTP_PORT] set to the
    empty string, [missing_configs] names both, though only the first is
    absent from the environment. *)
Lemma missing_config_counterexample :
  absent half_configured_world "SMTP_HOST" = true
  /\ List.filter (absent half_configured_world) required_settings = ["SMTP_HOST"]
  /\ fst (send_email ascii_int half_configured_world
            "user@example.com" "Test" "Test body" None None "plain" [])
     !! "missing_configs" = Some (VList [VStr "SMTP_HOST"; VStr "SMTP_PORT"])
  /\ fst (send_email ascii_int half_configured_world
            "user@example.com" "Test" "Test body" None None "plain" [])
     !! "missing_configs"
     <> Some (VList (VStr <$> List.filter (absent half_configured_world)
                                          required_settings)).
Proof. split_and!; [reflexivity..|vm_compute; discriminate]. Qed.



(** The implicit-TLS configuration of the test suite: port 465 and
    [SMTP_USE_TLS=false]. *)
Lemma secure_channel_by_mode_witness :
  at_transport ascii_int ssl_world
    "user@example.com" "Test Email" "Test body" None "plain" test_message 465
  /\ exists calls,
       snd (send_email ascii_int ssl_world
              "user@example.com" "Test Email" "Test body" None None "plain" [])
       = calls
       /\ head calls = Some (SMTP_SSL "smtp.example.com" 465)
       /\ starttls ∉ calls.
Proof.
  assert (Hat : at_transport ascii_int ssl_world
                  "user@example.com" "Test Email" "Test body" None "plain"
                  test_message 465)
    by (repeat split; reflexivity).
  split; [exact Hat|].
  destruct (secure_channel_by_mode ascii_int ssl_world
              "user@example.com" "Test Email" "Test body" None None "plain" []
              test_message 465 Hat) as (calls & Hh & _ & Hssl & _).
  destruct (Hssl eq_refl) as (Hhead & Hno & _).
  exists calls. split_and!; [exact Hh|exact Hhead|exact Hno].
Defined.

(** The calls the default configuration makes. *)
Example test_send_email_success_plain :
  snd (send_email ascii_int working_world
         "user@example.com" "Test Email" "Test body" None None "plain" [])
  = [SMTP "smtp.example.com" 587; starttls;
     login "test@example.com" "test-password";
     send_message test_message "test@example.com" ["user@example.com"];
     quit].
Proof. reflexivity. Qed.

(** A to-text with a trailing comma: two segments, the last one empty,
    and both handed to the transport. *)
Lemma recipients_split_and_concatenated_witness :
  length (strip <$> split "," "a@x.com,") = 2%nat
  /\ join "," (split "," "a@x.com,") = "a@x.com,"
  /\ exists calls,
       snd (send_email ascii_int working_world "a@x.com," "Hi" "Hello"
              None None "plain" []) = calls
       /\ forall msg from_addr to_addrs,
            send_message msg from_addr to_addrs ∈ calls ->
            to_addrs = ["a@x.com"; ""].
Proof.
  destruct (recipients_split_and_concatenated ascii_int working_world
              "a@x.com," "Hi" "Hello" None None "plain" [])
    as (Hlen & Hjoin & _ & _ & (calls & Hh & Hto) & _).
  split_and!; [exact Hlen|exact Hjoin|].
  exists calls. split; [exact Hh|].
  intros msg from_addr to_addrs Hin. exact (proj1 (Hto msg from_addr to_addrs Hin)).
Defined.

Example trailing_comma_keeps_empty_recipient :
  parse_addresses "a@x.com," = ["a@x.com"; ""].
Proof. reflexivity. Qed.

Example segments_are_trimmed :
  parse_addresses " a@x.com ,b@x.com  " = ["a@x.com"; "b@x.com"].
Proof. reflexivity. Qed.

Example duplicates_are_kept :
  snd (send_email ascii_int working_world
         "a@x.com,a@x.com" "Hi" "Hello" (Some "a@x.com") None "plain" [])
  !! 3%nat
  = Some (send_message
            {| headers := [("From", "test@example.com"); ("To", "a@x.com,a@x.com");
                           ("Subject", "Hi"); ("Cc", "a@x.com")];
               parts := [MIMEText "Hello" "plain" "utf-8"] |}
            "test@example.com" ["a@x.com"; "a@x.com"; "a@x.com"]).
Proof. reflexivity. Qed.

(** The welcome example of the specification: one item per feature, and
    no features block without features. *)
(** The welcome data of the specification's example: two features, no
    button. *)
Lemma welcome_fragments_witness :
  assoc "features" welcome_data = Some (VList [VStr "f1"; VStr "f2"])
  /\ features_html_of str_of_constant "welcome" welcome_data
     = inr ("<div class=" ++ dq ++ "features" ++ dq ++ ">"
            ++ "<div class=" ++ dq ++ "feature-item" ++ dq ++ ">f1</div>"
            ++ "<div class=" ++ dq ++ "feature-item" ++ dq ++ ">f2</div>"
            ++ "</div>")
  /\ button_html_of str_of_constant welcome_data = "".
Proof.
  destruct (welcome_fragments str_of_constant welcome_data)
    as (_ & Hb & Hf & _).
  split_and!; [reflexivity| |apply Hb; left; reflexivity].
  exact (proj1 (Hf [VStr "f1"; VStr "f2"] eq_refl)).
Defined.

Example welcome_two_features py_str :
  features_html_of py_str "welcome" welcome_data
  = inr ("<div class=" ++ dq ++ "features" ++ dq ++ ">"
         ++ "<div class=" ++ dq ++ "feature-item" ++ dq ++ ">f1</div>"
         ++ "<div class=" ++ dq ++ "feature-item" ++ dq ++ ">f2</div>"
         ++ "</div>").
Proof. reflexivity. Qed.

Example welcome_without_features py_str :
  features_html_of py_str "welcome"
    [("title", VStr "Welcome"); ("message", VStr "Thanks for joining")]
  = inr "".
Proof. reflexivity. Qed.

(** A required setting is absent and the recipient is empty as well. *)
Lemma config_check_precedes_validation_witness :
  (exists k, k ∈ required_settings /\ getenv no_env_world k = None)
  /\ fst (send_email ascii_int no_env_world "" "Test" "Test body" None None
            "plain" [])
     !! "error_code" = Some (VStr "MISSING_SMTP_CONFIG").
Proof.
  assert (H : exists k, k ∈ required_settings /\ getenv no_env_world k = None).
  { exists "SMTP_HOST". split; [apply list_elem_of_here|reflexivity]. }
  split; [exact H|].
  apply (config_check_precedes_validation ascii_int no_env_world
           "" "Test" "Test body" None None "plain" [] H).
  left. reflexivity.
Defined.

(** With the settings in place the same call is answered with the code
    of the invalid argument. *)
Example test_send_email_invalid_recipient :
  fst (send_email ascii_int working_world "" "Test" "Test body" None None
         "plain" [])
  !! "error_code" = Some (VStr "INVALID_RECIPIENT").
Proof. reflexivity. Qed.

(* ===================================================================== *)
(** ** More statements at concrete calls *)
(* ===================================================================== *)

(** The server goes away before [quit]: the message has been accepted,
    and the call still reports a failure, with [SMTP_ERROR]. *)
Lemma first_raise_decides_witness :
  at_transport ascii_int disconnecting_world
    "user@example.com" "Test Email" "Test body" None "plain" test_message 587
  /\ snd (send_email ascii_int disconnecting_world
            "user@example.com" "Test Email" "Test body" None None "plain" [])
     = [SMTP "smtp.example.com" 587; starttls;
        login "test@example.com" "test-password";
        send_message test_message "test@example.com" ["user@example.com"];
        quit]
  /\ fst (send_email ascii_int disconnecting_world
            "user@example.com" "Test Email" "Test body" None None "plain" [])
     !! "success" = Some (VBool false)
  /\ fst (send_email ascii_int disconnecting_world
            "user@example.com" "Test Email" "Test body" None None "plain" [])
     !! "error_code" = Some (VStr "SMTP_ERROR").
Proof.
  assert (Hat : at_transport ascii_int disconnecting_world
                  "user@example.com" "Test Email" "Test body" None "plain"
                  test_message 587)
    by (repeat split; reflexivity).
  destruct (first_raise_decides ascii_int disconnecting_world
              "user@example.com" "Test Email" "Test body" None None "plain" []
              test_message 587
              [SMTP "smtp.example.com" 587; starttls;
               login "test@example.com" "test-password";
               send_message test_message "test@example.com" ["user@example.com"]]
              quit server_disconnected Hat)
    as (Hh & Hs & _ & He & _).
  - exists []. reflexivity.
  - intros k _. destruct k as [|[|[|[|k]]]]; reflexivity.
  - reflexivity.
  - split_and!; [exact Hat|exact Hh|exact Hs|apply He; reflexivity].
Defined.

(** A refused connection is reported with [SMTP_CONNECTION_ERROR], and
    no [login] is attempted. *)
Example connection_refused_code :
  send_email ascii_int refusing_world
    "user@example.com" "Test Email" "Test body" None None "plain" []
  = (failure "连接 SMTP 服务器失败: [Errno 111] Connection refused"
             "SMTP_CONNECTION_ERROR",
     [SMTP "smtp.example.com" 587]).
Proof. reflexivity. Qed.


(** With rejected credentials no message is handed over. *)
Lemma delivery_only_after_login_witness :
  at_transport ascii_int auth_rejecting_world
    "user@example.com" "Test Email" "Test body" None "plain" test_message 587
  /\ exists made,
       snd (send_email ascii_int auth_rejecting_world
              "user@example.com" "Test Email" "Test body" None None "plain" [])
       = made
       /\ forall i m f rc, made !! i <> Some (send_message m f rc).
Proof.
  assert (Hat : at_transport ascii_int auth_rejecting_world
                  "user@example.com" "Test Email" "Test body" None "plain"
                  test_message 587)
    by (repeat split; reflexivity).
  split; [exact Hat|].
  destruct (delivery_only_after_login ascii_int auth_rejecting_world
              "user@example.com" "Test Email" "Test body" None None "plain" []
              test_message 587 Hat) as (made & Hh & Hsend & _).
  exists made. split; [exact Hh|].
  intros i m f rc Hi. destruct (Hsend i m f rc Hi) as (j & -> & Hl & Hok).
  cbn [app] in Hh, Hok.
  assert (Hm : take (S j) made
               = take (S j) [SMTP "smtp.example.com" 587; starttls;
                             login "test@example.com" "test-password"])
    by (by rewrite <- Hh).
  rewrite Hm in Hok. rewrite <- Hh in Hl.
  destruct j as [|[|[|j]]]; first [discriminate Hl | discriminate Hok].
Defined.

(** A directory entry is skipped and a readable file is attached. *)
Lemma delivered_message_witness :
  exists made,
    snd (send_email ascii_int (world_with_files [archive_dir; report_pdf])
           "user@example.com" "Test Email" "Test body" None (Some "boss@example.com")
           "plain" []) = made
    /\ forall m from_addr to_addrs,
         send_message m from_addr to_addrs ∈ made ->
         headers m = [("From", "test@example.com"); ("To", "user@example.com");
                      ("Subject", "Test Email")]
         /\ parts m
            = [MIMEText "Test body" "plain" "utf-8";
               MIMEBase "application" "octet-stream"
                 [Byte.x25; Byte.x50; Byte.x44; Byte.x46]
                 [("Content-Transfer-Encoding", "base64");
                  ("Content-Disposition", "attachment; filename=report.pdf")]]
         /\ to_addrs = ["user@example.com"; "boss@example.com"].
Proof.
  destruct (delivered_message ascii_int (world_with_files [archive_dir; report_pdf])
              "user@example.com" "Test Email" "Test body" None
              (Some "boss@example.com") "plain" []) as (made & Hh & Hm).
  exists made. split; [exact Hh|].
  intros m f rc Hin. destruct (Hm m f rc Hin) as (_ & -> & _ & _ & _).
  split_and!; [reflexivity|reflexivity|].
  cbn [app] in Hh. rewrite <- Hh in Hin.
  do 3 (apply elem_of_cons in Hin as [Hin|Hin]; [discriminate Hin|]).
  apply elem_of_cons in Hin as [Hin|Hin].
  - injection Hin; intros; subst rc; reflexivity.
  - apply elem_of_cons in Hin as [Hin|Hin]; [discriminate Hin|].
    by apply elem_of_nil in Hin.
Defined.


(** The body type of the test suite that is neither plain nor html. *)
Lemma arguments_validated_in_order_witness :
  configured working_world
  /\ fst (send_email ascii_int working_world
            "user@example.com" "Test" "Test body" None None "markdown" [])
     !! "error_code" = Some (VStr "INVALID_BODY_TYPE")
  /\ snd (send_email ascii_int working_world
            "user@example.com" "Test" "Test body" None None "markdown" []) = [].
Proof.
  assert (Hc : configured working_world) by reflexivity.
  split; [exact Hc|].
  destruct (arguments_validated_in_order ascii_int working_world
              "user@example.com" "Test" "Test body" None None "markdown" [] Hc)
    as (_ & _ & _ & H).
  apply H; discriminate.
Defined.

(** Nothing is configured and the subject is empty: the bulk send answers
    for the subject. *)
Lemma bulk_arguments_first_witness :
  fst (send_bulk_email ascii_int no_env_world ["user@example.com"] ""
         "Test body" "plain" [])
  !! "error_code" = Some (VStr "INVALID_SUBJECT").
Proof.
  destruct (bulk_arguments_first ascii_int no_env_world ["user@example.com"] ""
              "Test body" "plain" []) as (_ & H & _).
  apply H; [discriminate|reflexivity].
Defined.

(** Nothing is configured: both recipients fail, no call is made. *)
Lemma bulk_unconfigured_witness :
  (exists k, k ∈ required_settings /\ unset no_env_world k = true)
  /\ snd (send_bulk_email ascii_int no_env_world
            ["user1@example.com"; "user2@example.com"] "Bulk Test" "Hello"
            "plain" []) = []
  /\ fst (send_bulk_email ascii_int no_env_world
            ["user1@example.com"; "user2@example.com"] "Bulk Test" "Hello"
            "plain" [])
     !! "failed" = Some (VInt 2).
Proof.
  assert (H : exists k, k ∈ required_settings /\ unset no_env_world k = true).
  { exists "SMTP_HOST". split; [apply list_elem_of_here|reflexivity]. }
  assert (Hlen : (0 < length ["user1@example.com"; "user2@example.com"])%nat)
    by (cbn; lia).
  destruct (bulk_unconfigured ascii_int no_env_world
              ["user1@example.com"; "user2@example.com"] "Bulk Test" "Hello"
              "plain" [] H Hlen eq_refl eq_refl) as (Hh & _ & _ & _ & Hf & _).
  split_and!; [exact H|exact Hh|exact Hf].
Defined.


(** The unknown template type of the test suite, nothing configured. *)
Lemma template_arguments_first_witness :
  send_email_with_template ascii_int str_of_constant no_env_world
    "user@example.com" "Test" "invalid_template"
    (VDict [("title", VStr "Test")]) None None []
  = (failure ("不支持的模板类型: invalid_template"
              ++ "。支持的类型：notification, welcome, alert, report")
             "INVALID_TEMPLATE_TYPE", []).
Proof.
  destruct (template_arguments_first ascii_int str_of_constant no_env_world
              "user@example.com" "Test" "invalid_template"
              (VDict [("title", VStr "Test")]) None None []) as (_ & _ & H & _).
  apply H; [discriminate|discriminate|].
  intros Hin.
  repeat (apply elem_of_cons in Hin as [Hin|Hin]; [discriminate Hin|]).
  by apply elem_of_nil in Hin.
Defined.

(** The welcome send of the specification on the working transport. *)
Lemma templated_send_is_html_send_witness :
  fst (send_email_with_template ascii_int str_of_constant working_world
         "user@example.com" "Welcome" "welcome" (VDict welcome_data) None None [])
  !! "template_type" = Some (VStr "welcome")
  /\ fst (send_email_with_template ascii_int str_of_constant working_world
            "user@example.com" "Welcome" "welcome" (VDict welcome_data) None None [])
     !! "recipients" = Some (VList [VStr "user@example.com"]).
Proof.
  epose proof (templated_send_is_html_send ascii_int str_of_constant working_world
                 "user@example.com" "Welcome" "welcome" _ _ None None [] _
                 eq_refl eq_refl
                 (list_elem_of_further _ _ _ (list_elem_of_here _ _))
                 (eq_refl : html_body_of str_of_constant "welcome" welcome_data = _))
    as (_ & Hk & Ht & _).
  split.
  - apply Ht. reflexivity.
  - etransitivity; [apply (Hk "recipients"); discriminate|reflexivity].
Defined.

(** Features that are not even iterable do no harm in a notification. *)
Lemma fragments_by_template_type_witness :
  features_html_of str_of_constant "notification"
    [("message", VStr "Your account is active"); ("features", VInt 5)]
  = inr "".
Proof.
  destruct (fragments_by_template_type str_of_constant "notification"
              [("message", VStr "Your account is active"); ("features", VInt 5)])
    as (H & _).
  apply H. discriminate.
Defined.

(** Two details, in the order given. *)
Lemma alert_details_witness :
  details_html_of str_of_constant "alert" alert_data
  = inr ("<div class=" ++ dq ++ "details" ++ dq ++ ">"
         ++ "<div><strong>time:</strong> 10:00</div>"
         ++ "<div><strong>ip:</strong> 192.168.1.1</div>"
         ++ "</div>").
Proof.
  destruct (alert_details str_of_constant alert_data) as (H & _).
  exact (H [("time", VStr "10:00"); ("ip", VStr "192.168.1.1")] eq_refl).
Defined.

(** Two stats, the second without a value. *)
Lemma report_stats_witness :
  stats_html_of str_of_constant "report" report_data
  = inr ("<div class=" ++ dq ++ "stats" ++ dq ++ ">"
         ++ stat_card_text str_of_constant
              [("label", VStr "users"); ("value", VStr "1,234")]
         ++ stat_card_text str_of_constant [("label", VStr "growth")]
         ++ "</div>")
  /\ stat_card_text str_of_constant [("label", VStr "growth")]
     = lines ["";
              "                <div class=" ++ dq ++ "stat-card" ++ dq ++ ">";
              "                    <div class=" ++ dq ++ "stat-value" ++ dq
                ++ ">N/A</div>";
              "                    <div class=" ++ dq ++ "stat-label" ++ dq
                ++ ">growth</div>";
              "                </div>";
              "                "].
Proof.
  destruct (report_stats str_of_constant report_data) as (H & _).
  split; [|reflexivity].
  exact (H [[("label", VStr "users"); ("value", VStr "1,234")];
            [("label", VStr "growth")]] eq_refl).
Defined.

(** Two addresses joined and parsed. *)
Lemma parse_joined_addresses_witness :
  join "," ["a@x.com"; "b@x.com"] = "a@x.com,b@x.com"
  /\ parse_addresses "a@x.com,b@x.com" = ["a@x.com"; "b@x.com"].
Proof.
  split; [reflexivity|].
  apply (parse_joined_addresses ["a@x.com"; "b@x.com"]); [cbn; lia|reflexivity].
Defined.

(** [SMTP_USE_TLS=yes] does not switch the secure upgrade on. *)
Lemma secure_upgrade_switch_witness :
  getenv yes_world "SMTP_USE_TLS" = Some "yes"
  /\ use_tls yes_world = false
  /\ exists made,
       snd (send_email ascii_int yes_world
              "user@example.com" "Test Email" "Test body" None None "plain" [])
       = made
       /\ head made = Some (SMTP_SSL "smtp.example.com" 587).
Proof.
  assert (Hat : at_transport ascii_int yes_world
                  "user@example.com" "Test Email" "Test body" None "plain"
                  test_message 587)
    by (repeat split; reflexivity).
  destruct (secure_upgrade_switch ascii_int yes_world
              "user@example.com" "Test Email" "Test body" None None "plain" []
              test_message 587 "yes" eq_refl Hat) as (Hu & made & Hh & Hd).
  split_and!; [reflexivity|exact Hu|].
  exists made. split; [exact Hh|exact Hd].
Defined.

(** The result of a send that the server refuses to authenticate. *)
Lemma result_shape_witness :
  fst (send_email ascii_int auth_rejecting_world
         "user@example.com" "Test Email" "Test body" None None "plain" [])
  !! "recipients" = None
  /\ exists error,
       fst (send_email ascii_int auth_rejecting_world
              "user@example.com" "Test Email" "Test body" None None "plain" [])
       !! "error" = Some (VStr error).
Proof.
  destruct (result_shape ascii_int auth_rejecting_world
              "user@example.com" "Test Email" "Test body" None None "plain" [])
    as [(Hs & _)|(_ & He & _ & _ & Hr)]; [discriminate Hs|].
  split; [exact Hr|exact He].
Defined.
